(** * BannkMint AI: CSV transaction ingestion and query (server.py)

    A shallow embedding of [server.py]: the date normalizer, the
    deduplication key, the CSV validator, the upload handler and the
    transaction query, together with the properties of its specification.

    Conventions.
    - A Python [str] is a [string] whose characters are read as the code
      points 0..255; [Py.encode] is the UTF-8 encoding of such a string.
    - A Python [float] is a binary64 datum, [spec_float] with
      [prec = 53] and [emax = 1024].
    - Exceptions are values of [exn] carried by the result type [py].
    - The MongoDB collection [db.transactions] is the list of its documents
      in insertion order. *)

From Stdlib Require Import ZArith List String Ascii Bool Lia DecimalString.
From Stdlib Require Import Floats.SpecFloat Sorted Permutation.
From stdpp Require Import base option list gmap strings.
Import ListNotations.

Open Scope string_scope.
Open Scope Z_scope.

(** ** Python built-ins used by server.py *)

Module Py.

Definition ord (c : ascii) : Z := Z.of_N (N_of_ascii c).
Definition chr (z : Z) : ascii := ascii_of_N (Z.to_N z).

Fixpoint str_map (f : ascii -> ascii) (s : string) : string :=
  match s with
  | EmptyString => EmptyString
  | String c r => String (f c) (str_map f r)
  end.

Fixpoint str_repeat (c : ascii) (n : nat) : string :=
  match n with
  | O => EmptyString
  | S k => String c (str_repeat c k)
  end.

(** [c.isspace()] on the code points below 256. *)
Definition isspace (c : ascii) : bool :=
  let n := ord c in
  ((9 <=? n) && (n <=? 13)) || ((28 <=? n) && (n <=? 32))
  || (n =? 133) || (n =? 160).

Fixpoint lstrip (s : string) : string :=
  match s with
  | EmptyString => EmptyString
  | String c r => if isspace c then lstrip r else s
  end.

Fixpoint rstrip (s : string) : string :=
  match s with
  | EmptyString => EmptyString
  | String c r =>
      match rstrip r with
      | EmptyString => if isspace c then EmptyString else String c EmptyString
      | r' => String c r'
      end
  end.

(** [s.strip()] *)
Definition strip (s : string) : string := rstrip (lstrip s).

Definition lower_char (c : ascii) : ascii :=
  let n := ord c in
  if ((65 <=? n) && (n <=? 90))
     || ((192 <=? n) && (n <=? 222) && negb (n =? 215))
  then chr (n + 32) else c.

(** [s.lower()] *)
Definition lower (s : string) : string := str_map lower_char s.

(** [needle in hay] for two strings. *)
Fixpoint contains (needle hay : string) : bool :=
  String.prefix needle hay ||
  match hay with
  | EmptyString => false
  | String _ r => contains needle r
  end.

(** [s.split(sep)] for a separator of one character. *)
Fixpoint split (sep : ascii) (s : string) : list string :=
  match s with
  | EmptyString => [EmptyString]
  | String c r =>
      if Ascii.eqb c sep then EmptyString :: split sep r
      else match split sep r with
           | p :: ps => String c p :: ps
           | [] => [String c EmptyString]
           end
  end.

(** [sep.join(parts)] *)
Fixpoint join (sep : string) (parts : list string) : string :=
  match parts with
  | [] => EmptyString
  | [p] => p
  | p :: ps => p ++ sep ++ join sep ps
  end.

(** [s.zfill(width)]: zeros go after a leading sign. *)
Definition zfill (width : nat) (s : string) : string :=
  let fill := (width - String.length s)%nat in
  match fill with
  | O => s
  | _ =>
      match s with
      | String c r =>
          if Ascii.eqb c "+" || Ascii.eqb c "-"
          then String c (str_repeat "0" fill ++ r)
          else str_repeat "0" fill ++ s
      | EmptyString => str_repeat "0" fill
      end
  end.

(** [str(n)] for an [int]. *)
Definition str_int (z : Z) : string := NilZero.string_of_int (Z.to_int z).

Definition hex_digit (n : Z) : ascii :=
  if n <? 10 then chr (48 + n) else chr (87 + n).

Definition hex2 (n : Z) : string :=
  String (hex_digit (n / 16)) (String (hex_digit (n mod 16)) EmptyString).

(** [str.isprintable] on the code points below 256. *)
Definition isprintable (c : ascii) : bool :=
  let n := ord c in
  ((32 <=? n) && (n <=? 126)) || ((161 <=? n) && negb (n =? 173)).

Definition repr_char (quote : ascii) (c : ascii) : string :=
  if Ascii.eqb c quote || Ascii.eqb c "\" then String "\" (String c EmptyString)
  else if ord c =? 9 then "\t"
  else if ord c =? 10 then "\n"
  else if ord c =? 13 then "\r"
  else if isprintable c then String c EmptyString
  else "\x" ++ hex2 (ord c).

Fixpoint repr_body (quote : ascii) (s : string) : string :=
  match s with
  | EmptyString => EmptyString
  | String c r => repr_char quote c ++ repr_body quote r
  end.

(** [repr(s)] for a [str]: double quotes only when the text has a single
    quote and no double quote. *)
Definition repr_str (s : string) : string :=
  let quote : ascii :=
    if contains "'" s && negb (contains (String (chr 34) EmptyString) s)
    then chr 34 else "'"%char in
  String quote (repr_body quote s ++ String quote EmptyString).

(** [s.encode()]: UTF-8, for code points below 256. *)
Fixpoint encode (s : string) : list Z :=
  match s with
  | EmptyString => []
  | String c r =>
      let n := ord c in
      if n <? 128 then n :: encode r
      else Z.lor 192 (Z.shiftr n 6) :: Z.lor 128 (Z.land n 63) :: encode r
  end.

End Py.

(** ** hashlib.md5 (RFC 1321) *)

Module Hashlib.

Definition wrap32 (x : Z) : Z := x mod 2 ^ 32.

Definition rotl32 (x c : Z) : Z :=
  Z.lor (wrap32 (Z.shiftl x c)) (Z.shiftr x (32 - c)).

Definition md5_shift : list Z :=
  [7; 12; 17; 22; 7; 12; 17; 22; 7; 12; 17; 22; 7; 12; 17; 22;
   5; 9; 14; 20; 5; 9; 14; 20; 5; 9; 14; 20; 5; 9; 14; 20;
   4; 11; 16; 23; 4; 11; 16; 23; 4; 11; 16; 23; 4; 11; 16; 23;
   6; 10; 15; 21; 6; 10; 15; 21; 6; 10; 15; 21; 6; 10; 15; 21].

(** [floor (2^32 * abs (sin (i + 1)))] for [i] in 0..63. *)
Definition md5_sine : list Z :=
  [3614090360; 3905402710; 606105819; 3250441966; 4118548399; 1200080426;
   2821735955; 4249261313; 1770035416; 2336552879; 4294925233; 2304563134;
   1804603682; 4254626195; 2792965006; 1236535329; 4129170786; 3225465664;
   643717713; 3921069994; 3593408605; 38016083; 3634488961; 3889429448;
   568446438; 3275163606; 4107603335; 1163531501; 2850285829; 4243563512;
   1735328473; 2368359562; 4294588738; 2272392833; 1839030562; 4259657740;
   2763975236; 1272893353; 4139469664; 3200236656; 681279174; 3936430074;
   3572445317; 76029189; 3654602809; 3873151461; 530742520; 3299628645;
   4096336452; 1126891415; 2878612391; 4237533241; 1700485571; 2399980690;
   4293915773; 2240044497; 1873313359; 4264355552; 2734768916; 1309151649;
   4149444226; 3174756917; 718787259; 3951481745].

(** Little-endian bytes of [x], [n] of them. *)
Fixpoint le_bytes (n : nat) (x : Z) : list Z :=
  match n with
  | O => []
  | S k => x mod 256 :: le_bytes k (x / 256)
  end.

Definition md5_pad (msg : list Z) : list Z :=
  let len := Z.of_nat (length msg) in
  msg ++ [128] ++ repeat 0 (Z.to_nat ((55 - len) mod 64))
      ++ le_bytes 8 ((8 * len) mod 2 ^ 64).

Fixpoint le_words (bs : list Z) : list Z :=
  match bs with
  | b0 :: b1 :: b2 :: b3 :: r =>
      (b0 + 256 * (b1 + 256 * (b2 + 256 * b3))) :: le_words r
  | _ => []
  end.

Fixpoint blocks16 (fuel : nat) (ws : list Z) : list (list Z) :=
  match fuel, ws with
  | S f, _ :: _ => firstn 16 ws :: blocks16 f (skipn 16 ws)
  | _, _ => []
  end.

Record md5_state := MD5 { md5_a : Z; md5_b : Z; md5_c : Z; md5_d : Z }.

Definition md5_init : md5_state :=
  MD5 0x67452301 0xefcdab89 0x98badcfe 0x10325476.

Definition md5_step (m : list Z) (st : md5_state) (i : nat) : md5_state :=
  let '(MD5 a b c d) := st in
  let iz := Z.of_nat i in
  let not32 x := Z.lxor x 0xffffffff in
  let '(f, g) :=
    if iz <? 16 then (Z.lor (Z.land b c) (Z.land (not32 b) d), iz)
    else if iz <? 32 then
      (Z.lor (Z.land d b) (Z.land (not32 d) c), (5 * iz + 1) mod 16)
    else if iz <? 48 then (Z.lxor b (Z.lxor c d), (3 * iz + 5) mod 16)
    else (Z.lxor c (Z.lor b (not32 d)), (7 * iz) mod 16) in
  let f' := wrap32 (f + a + nth i md5_sine 0 + nth (Z.to_nat g) m 0) in
  MD5 d (wrap32 (b + rotl32 f' (nth i md5_shift 0))) b c.

Definition md5_block (st : md5_state) (m : list Z) : md5_state :=
  let '(MD5 a b c d) := fold_left (md5_step m) (seq 0 64) st in
  MD5 (wrap32 (md5_a st + a)) (wrap32 (md5_b st + b))
      (wrap32 (md5_c st + c)) (wrap32 (md5_d st + d)).

(** [hashlib.md5(msg).digest()] *)
Definition md5_digest (msg : list Z) : list Z :=
  let ws := le_words (md5_pad msg) in
  let '(MD5 a b c d) := fold_left md5_block (blocks16 (length ws) ws) md5_init in
  le_bytes 4 a ++ le_bytes 4 b ++ le_bytes 4 c ++ le_bytes 4 d.

Fixpoint hex_of_bytes (bs : list Z) : string :=
  match bs with
  | [] => EmptyString
  | b :: r => Py.hex2 b ++ hex_of_bytes r
  end.

(** [hashlib.md5(msg).hexdigest()] *)
Definition md5_hexdigest (msg : list Z) : string :=
  hex_of_bytes (md5_digest msg).

End Hashlib.

(** ** Python floats: [float(x)] and [repr] on binary64 *)

Module PyFloat.

Definition prec : Z := 53.
Definition emax : Z := 1024.

Definition float : Type := spec_float.

Definition nan : float := S754_nan.

(** Structural equality; on the floats of Python (which are canonical) it
    distinguishes [0.0] from [-0.0] and identifies all NaNs. *)
Definition same (x y : float) : bool :=
  match x, y with
  | S754_zero a, S754_zero b => Bool.eqb a b
  | S754_infinity a, S754_infinity b => Bool.eqb a b
  | S754_nan, S754_nan => true
  | S754_finite a m e, S754_finite b n f =>
      Bool.eqb a b && Pos.eqb m n && Z.eqb e f
  | _, _ => false
  end.

(** [math.isnan], which is what [pd.notna] negates on a float cell. *)
Definition isnan (x : float) : bool :=
  match x with S754_nan => true | _ => false end.

(** [float(n)] for an [int]: round to nearest, ties to even. *)
Definition of_int (z : Z) : float := binary_normalize prec emax z 0 false.

(** The float nearest to [d * 10^e10] for [0 <= d]. A quotient is cut with a
    sticky bit below 63 significant bits, so rounding it again is exact. *)
Definition of_decimal (neg : bool) (d e10 : Z) : float :=
  if d <=? 0 then S754_zero neg
  else
    let r :=
      if 0 <=? e10 then binary_normalize prec emax (d * 10 ^ e10) 0 false
      else
        let den := 10 ^ (- e10) in
        let sh := Z.max 0 (Z.log2 den - Z.log2 d + 64) in
        let num := Z.shiftl d sh in
        let sticky := if num mod den =? 0 then 0 else 1 in
        binary_normalize prec emax
          (Z.lor (Z.shiftl (num / den) 1) sticky) (- sh - 1) false in
    if neg then SFopp r else r.

Definition is_digit (c : ascii) : bool :=
  (48 <=? Py.ord c) && (Py.ord c <=? 57).

(** A run of decimal digits: its value, its length and what follows. *)
Fixpoint digits (s : string) (acc n : Z) : Z * Z * string :=
  match s with
  | String c r =>
      if is_digit c then digits r (10 * acc + (Py.ord c - 48)) (n + 1)
      else (acc, n, s)
  | EmptyString => (acc, n, s)
  end.

(** Underscores are dropped when each stands between two digits. *)
Fixpoint drop_underscores (prev : ascii) (s : string) : option string :=
  match s with
  | EmptyString => if Ascii.eqb prev "_" then None else Some EmptyString
  | String c r =>
      if Ascii.eqb c "_" then
        if is_digit prev then drop_underscores c r else None
      else if Ascii.eqb prev "_" && negb (is_digit c) then None
      else option_map (String c) (drop_underscores c r)
  end.

Definition ascii_lower (c : ascii) : ascii :=
  if (65 <=? Py.ord c) && (Py.ord c <=? 90) then Py.chr (Py.ord c + 32) else c.

Definition read_sign (s : string) : bool * string :=
  match s with
  | String c r =>
      if Ascii.eqb c "-" then (true, r)
      else if Ascii.eqb c "+" then (false, r) else (false, s)
  | EmptyString => (false, s)
  end.

(** The exponent part: absent, or [e]/[E], an optional sign and digits. *)
Definition read_exponent (s : string) : option Z :=
  match s with
  | EmptyString => Some 0
  | String c r =>
      if Ascii.eqb (ascii_lower c) "e" then
        let '(neg, r1) := read_sign r in
        match digits r1 0 0 with
        | (v, n, EmptyString) =>
            if 0 <? n then Some (if neg then - v else v) else None
        | _ => None
        end
      else None
  end.

Definition read_number (neg : bool) (s : string) : option float :=
  let '(ip, n1, r1) := digits s 0 0 in
  let '(mant, n2, r2) :=
    match r1 with
    | String c r =>
        if Ascii.eqb c "." then digits r ip 0 else (ip, 0, r1)
    | EmptyString => (ip, 0, r1)
    end in
  if 0 <? n1 + n2 then
    match read_exponent r2 with
    | Some e => Some (of_decimal neg mant (e - n2))
    | None => None
    end
  else None.

Definition ascii_space (c : ascii) : bool :=
  let n := Py.ord c in
  ((9 <=? n) && (n <=? 13)) || (n =? 32) || (n =? 133) || (n =? 160).

Fixpoint lstrip_ascii (s : string) : string :=
  match s with
  | String c r => if ascii_space c then lstrip_ascii r else s
  | EmptyString => EmptyString
  end.

Fixpoint rstrip_ascii (s : string) : string :=
  match s with
  | EmptyString => EmptyString
  | String c r =>
      match rstrip_ascii r with
      | EmptyString =>
          if ascii_space c then EmptyString else String c EmptyString
      | r' => String c r'
      end
  end.

(** [float(s)] for a [str], [None] where Python raises [ValueError]. *)
Definition parse (s : string) : option float :=
  match drop_underscores (Py.chr 0) (rstrip_ascii (lstrip_ascii s)) with
  | None => None
  | Some t =>
      let '(neg, body) := read_sign t in
      let low := Py.str_map ascii_lower body in
      if String.eqb low "inf" || String.eqb low "infinity"
      then Some (S754_infinity neg)
      else if String.eqb low "nan" then Some S754_nan
      else read_number neg body
  end.

(** [10^k <= num / den] *)
Definition pow10_le (k num den : Z) : bool :=
  if 0 <=? k then 10 ^ k * den <=? num else den <=? num * 10 ^ (- k).

(** [floor (log10 (num / den))], searched around an estimate from the bit
    lengths. *)
Definition log10_floor (num den : Z) : Z :=
  let est := (Z.log2 num - Z.log2 den) * 30103 / 100000 in
  fold_left (fun k c => if pow10_le c num den then c else k)
    [est - 2; est - 1; est; est + 1; est + 2] (est - 3).

(** The [n]-digit decimal next to [num / den] that reads back as [f], the
    nearer one when both neighbours do. *)
Definition candidate (f : float) (num den k n : Z) : option (Z * Z) :=
  let q := k - n + 1 in
  let '(a, b) :=
    if 0 <=? q then (num, den * 10 ^ q) else (num * 10 ^ (- q), den) in
  let lo := a / b in
  let r := a mod b in
  let back d := same (of_decimal false d q) f in
  match back lo, back (lo + 1) with
  | true, true =>
      Some (if 2 * r <? b then lo
            else if b <? 2 * r then lo + 1
            else if Z.even lo then lo else lo + 1, q)
  | true, false => Some (lo, q)
  | false, true => Some (lo + 1, q)
  | false, false => None
  end.

Fixpoint shortest (fuel : nat) (f : float) (num den k n : Z) : Z * Z :=
  match fuel with
  | O => (num / den, 0)
  | S fuel' =>
      match candidate f num den k n with
      | Some c => c
      | None => shortest fuel' f num den k (n + 1)
      end
  end.

Fixpoint drop_zeros (fuel : nat) (d q : Z) : Z * Z :=
  match fuel with
  | O => (d, q)
  | S fuel' =>
      if (d mod 10 =? 0) && negb (d =? 0) then drop_zeros fuel' (d / 10) (q + 1)
      else (d, q)
  end.

Definition substring_from (n : nat) (s : string) : string :=
  String.substring n (String.length s - n) s.

(** The digits and the position of the decimal point laid out as [repr]
    does: exponent form when the point is left of -3 or right of 16. *)
Definition layout (ds : string) (decpt : Z) : string :=
  let nd := Z.of_nat (String.length ds) in
  if (decpt <=? -4) || (16 <? decpt) then
    let e := decpt - 1 in
    let es := Py.str_int (Z.abs e) in
    String.substring 0 1 ds
      ++ (if 1 <? nd then "." ++ substring_from 1 ds else EmptyString)
      ++ "e" ++ (if e <? 0 then "-" else "+")
      ++ Py.zfill 2 es
  else if decpt <=? 0 then
    "0." ++ Py.str_repeat "0" (Z.to_nat (- decpt)) ++ ds
  else if nd <=? decpt then
    ds ++ Py.str_repeat "0" (Z.to_nat (decpt - nd)) ++ ".0"
  else
    String.substring 0 (Z.to_nat decpt) ds ++ "."
      ++ substring_from (Z.to_nat decpt) ds.

(** [repr(x)], which is also [str(x)] and what an f-string inserts: the
    shortest decimal text that reads back as [x]. *)
Definition repr (x : float) : string :=
  match x with
  | S754_nan => "nan"
  | S754_infinity neg => if neg then "-inf" else "inf"
  | S754_zero neg => if neg then "-0.0" else "0.0"
  | S754_finite neg m e =>
      let f := binary_normalize prec emax (Zpos m) e false in
      let '(num, den) :=
        if 0 <=? e then (Zpos m * 2 ^ e, 1) else (Zpos m, 2 ^ (- e)) in
      let k := log10_floor num den in
      let '(d, q) := shortest 17 f num den k 1 in
      let '(d', q') := drop_zeros 400 d q in
      let ds := Py.str_int d' in
      (if neg then "-" else EmptyString)
        ++ layout ds (Z.of_nat (String.length ds) + q')
  end.

End PyFloat.

(** ** datetime: calendar dates, [timedelta(days=n)] and [strftime] *)

Module Datetime.

Record datetime := Build {
  year : Z; month : Z; day : Z;
  hour : Z; minute : Z; second : Z; microsecond : Z
}.

Definition is_leap (y : Z) : bool :=
  (y mod 4 =? 0) && (negb (y mod 100 =? 0) || (y mod 400 =? 0)).

Definition days_in_month (y m : Z) : Z :=
  if m =? 2 then (if is_leap y then 29 else 28)
  else if (m =? 4) || (m =? 6) || (m =? 9) || (m =? 11) then 30 else 31.

(** Days of the year before the first of month [m]. *)
Definition days_before_month (y m : Z) : Z :=
  fold_left (fun acc k => acc + days_in_month y (Z.of_nat k))
    (seq 1 (Z.to_nat (m - 1))) 0.

Definition days_before_year (y : Z) : Z :=
  let p := y - 1 in p * 365 + p / 4 - p / 100 + p / 400.

(** [d.toordinal()]: 1 is 0001-01-01. *)
Definition toordinal (d : datetime) : Z :=
  days_before_year (year d) + days_before_month (year d) (month d) + day d.

(** Year, month and day of an ordinal, as [datetime._ord2ymd] finds them. *)
Definition ord2ymd (n : Z) : Z * Z * Z :=
  let n := n - 1 in
  let n400 := n / 146097 in
  let n := n mod 146097 in
  let n100 := n / 36524 in
  let n := n mod 36524 in
  let n4 := n / 1461 in
  let n := n mod 1461 in
  let n1 := n / 365 in
  let n := n mod 365 in
  let y := n400 * 400 + 1 + n100 * 100 + n4 * 4 + n1 in
  if (n1 =? 4) || (n100 =? 4) then (y - 1, 12, 31)
  else
    let leapyear := (n1 =? 3) && (negb (n4 =? 24) || (n100 =? 3)) in
    let before m :=
      fold_left
        (fun acc k =>
           acc + (if Z.of_nat k =? 2 then (if leapyear then 29 else 28)
                  else days_in_month 1 (Z.of_nat k)))
        (seq 1 (Z.to_nat (m - 1))) 0 in
    let m := Z.shiftr (n + 50) 5 in
    let m := if n <? before m then m - 1 else m in
    (y, m, n - before m + 1).

(** [d - timedelta(days=n)], [None] where Python raises [OverflowError]. *)
Definition minus_days (d : datetime) (n : Z) : option datetime :=
  let o := toordinal d - n in
  if (o <? 1) || (3652059 <? o) then None
  else
    let '(y, m, dd) := ord2ymd o in
    Some (Build y m dd (hour d) (minute d) (second d) (microsecond d)).

Definition two_digits (n : Z) : string := Py.zfill 2 (Py.str_int n).

(** [d.strftime('%Y-%m-%d')]; the C library writes the year unpadded. *)
Definition strftime_Ymd (d : datetime) : string :=
  Py.str_int (year d) ++ "-" ++ two_digits (month d) ++ "-"
    ++ two_digits (day d).

End Datetime.

(** ** Exceptions, results and HTTP responses *)

Inductive exn :=
| ValueError (msg : string)
| KeyError (key : string)
| OverflowError (msg : string)
| LibraryError (msg : string).

(** [str(e)] *)
Definition str_exn (e : exn) : string :=
  match e with
  | ValueError msg => msg
  | KeyError key => Py.repr_str key
  | OverflowError msg => msg
  | LibraryError msg => msg
  end.

(** A computation that returns or raises. *)
Inductive py (A : Type) : Type :=
| Ok (a : A)
| Raise (e : exn).
Arguments Ok {A} a.
Arguments Raise {A} e.

#[export] Instance py_ret : MRet py := @Ok.
#[export] Instance py_bind : MBind py := fun A B f c =>
  match c with
  | Ok a => f a
  | Raise e => Raise e
  end.

(** The [detail] of an [HTTPException]: a message, the dictionary
    [{"errors": [...]}], or the framework's report on a query parameter. *)
Inductive detail :=
| Message (s : string)
| Errors (errors : list string)
| QueryValidation.

Inductive response (A : Type) : Type :=
| Return (a : A)
| HTTPException (status_code : Z) (d : detail).
Arguments Return {A} a.
Arguments HTTPException {A} status_code d.

(** ** Models *)

Module Transaction.
Record t := Build {
  id : string;
  date : string;
  description : string;
  amount : PyFloat.float;
  currency : string;
  balance : option PyFloat.float;
  created_at : Datetime.datetime;
  hash_key : string
}.
End Transaction.
Abbreviation Transaction := Transaction.t.

Module TransactionResponse.
Record t := Build {
  id : string;
  date : string;
  description : string;
  amount : PyFloat.float;
  currency : string;
  balance : option PyFloat.float;
  created_at : Datetime.datetime
}.
End TransactionResponse.
Abbreviation TransactionResponse := TransactionResponse.t.

Record UploadResponse := { imported : Z; skipped : Z }.

Record TransactionsResponse := {
  data : list TransactionResponse;
  page : Z;
  limit : Z;
  total : Z
}.

(** ** pandas: the frame [pd.read_csv] returns

    A cell is what [df.iterrows()] hands out for a row of mixed columns: an
    [int], a [float] (NaN where the field is empty), a [str] or a [bool]. A
    row is a [Series] from column labels to cells; the frame carries the
    default [RangeIndex], so the row at position [i] has index [i]. *)

Inductive cell :=
| CInt (z : Z)
| CFloat (f : PyFloat.float)
| CStr (s : string)
| CBool (b : bool).

Abbreviation Series := (gmap string cell).

Record DataFrame := { columns : list string; iterrows : list Series }.

(** [str(x)] for a cell. *)
Definition str_cell (c : cell) : string :=
  match c with
  | CInt z => Py.str_int z
  | CFloat f => PyFloat.repr f
  | CStr s => s
  | CBool b => if b then "True" else "False"
  end.

(** [float(x)] for a cell. *)
Definition float_cell (c : cell) : py PyFloat.float :=
  match c with
  | CInt z => Ok (PyFloat.of_int z)
  | CFloat f => Ok f
  | CStr s =>
      match PyFloat.parse s with
      | Some f => Ok f
      | None =>
          Raise (ValueError
                   ("could not convert string to float: " ++ Py.repr_str s))
      end
  | CBool b => Ok (PyFloat.of_int (if b then 1 else 0))
  end.

(** [row[key]] *)
Definition getitem (row : Series) (key : string) : py cell :=
  match row !! key with
  | Some c => Ok c
  | None => Raise (KeyError key)
  end.

(** [pd.notna(row.get(key))] *)
Definition notna (x : option cell) : bool :=
  match x with
  | None => false
  | Some (CFloat f) => negb (PyFloat.isnan f)
  | Some _ => true
  end.

(** ** The MongoDB collection and the process state *)

Record World := {
  transactions : list Transaction;
  (** how many [Transaction] objects the process has built, which indexes
      the values its default factories draw *)
  built : nat
}.

(** [db.transactions.find_one({"hash_key": h})] *)
Definition find_one (h : string) (docs : list Transaction) : option Transaction :=
  List.find (fun t => String.eqb (Transaction.hash_key t) h) docs.

(** [db.transactions.insert_one(doc)] *)
Definition insert_one (doc : Transaction) (docs : list Transaction) : list Transaction :=
  docs ++ [doc].

(** The filter [{"date": {"$gte": a, "$lte": b}}], either bound optional;
    MongoDB compares strings by their bytes. *)
Record date_query := { gte : option string; lte : option string }.

Definition matches (q : date_query) (t : Transaction) : bool :=
  match gte q with
  | Some a => String.leb a (Transaction.date t)
  | None => true
  end &&
  match lte q with
  | Some b => String.leb (Transaction.date t) b
  | None => true
  end.

(** [count_documents(query)] *)
Definition count_documents (q : date_query) (docs : list Transaction) : Z :=
  Z.of_nat (length (List.filter (matches q) docs)).

Fixpoint insert_desc (t : Transaction) (l : list Transaction) : list Transaction :=
  match l with
  | [] => [t]
  | u :: r =>
      if String.leb (Transaction.date u) (Transaction.date t) then t :: l
      else u :: insert_desc t r
  end.

(** [sort("date", -1)]; records of one date keep their insertion order. *)
Definition sort_date_desc (docs : list Transaction) : list Transaction :=
  fold_right insert_desc [] docs.

(** [find(query).sort("date", -1).skip(skip).limit(limit)] read with
    [to_list(length=limit)] *)
Definition find_sorted (q : date_query) (skip lim : Z) (docs : list Transaction)
  : list Transaction :=
  firstn (Z.to_nat lim)
    (skipn (Z.to_nat skip) (sort_date_desc (List.filter (matches q) docs))).

Record UploadFile := {
  content_type : option string;
  size : option Z;
  content : list Z
}.

(** ** Concrete libraries and inputs

    Instances of what the handlers take from outside, for running them. *)

Module Demo.

Definition all_digits (s : string) : bool :=
  forallb PyFloat.is_digit (list_ascii_of_string s).

Definition number (s : string) : Z := fst (fst (PyFloat.digits s 0 0)).

(** A reader of the ISO form [YYYY-MM-DD] alone. It answers as
    [dateutil.parser.parse] does on the ISO dates and on [not-a-date], the
    inputs it is used on below; dateutil reads many more forms. *)
Definition iso_parse (s : string) : option Datetime.datetime :=
  match Py.split "-" s with
  | [y; m; d] =>
      if all_digits y && all_digits m && all_digits d
         && (String.length y =? 4)%nat && (String.length m =? 2)%nat
         && (String.length d =? 2)%nat
         && (1 <=? number y) && (1 <=? number m) && (number m <=? 12)
         && (1 <=? number d)
         && (number d <=? Datetime.days_in_month (number y) (number m))
      then Some (Datetime.Build (number y) (number m) (number d) 0 0 0 0)
      else None
  | _ => None
  end.

Definition uuid4 (n : nat) : string := "txn-" ++ Py.str_int (Z.of_nat n).

(** A clock that stands at noon of 2024-03-01 (UTC). *)
Definition utcnow (n : nat) : Datetime.datetime :=
  Datetime.Build 2024 3 1 12 0 0 0.

Definition row (cells : list (string * cell)) : Series := list_to_map cells.

Definition f12_5 : PyFloat.float := PyFloat.of_decimal false 125 (-1).
Definition f1 : PyFloat.float := PyFloat.of_int 1.
Definition f2 : PyFloat.float := PyFloat.of_int 2.

(** [[
date,description,amount,currency
31/01/2024,Coffee,12.5,USD
2024-02-01,Salary,1000,EUR
01/02/2024,Rent,-750.25,USD
]] *)
Definition three_rows : DataFrame :=
  {| columns := ["date"; "description"; "amount"; "currency"];
     iterrows :=
       [row [("date", CStr "31/01/2024"); ("description", CStr "Coffee");
             ("amount", CFloat f12_5); ("currency", CStr "USD")];
        row [("date", CStr "2024-02-01"); ("description", CStr "Salary");
             ("amount", CFloat (PyFloat.of_int 1000)); ("currency", CStr "EUR")];
        row [("date", CStr "01/02/2024"); ("description", CStr "Rent");
             ("amount", CFloat (PyFloat.of_decimal true 75025 (-2)));
             ("currency", CStr "USD")]] |}.

(** Two rows that differ in description, amount and currency and agree on
    the text [2024-01-31|A|1.0|B|2.0|C].
[[
date,description,amount,currency
31/01/2024,A|1.0|B,2.0,C
31/01/2024,A,1.0,B|2.0|C
]] *)
Definition bar_rows : DataFrame :=
  {| columns := ["date"; "description"; "amount"; "currency"];
     iterrows :=
       [row [("date", CStr "31/01/2024"); ("description", CStr "A|1.0|B");
             ("amount", CFloat f2); ("currency", CStr "C")];
        row [("date", CStr "31/01/2024"); ("description", CStr "A");
             ("amount", CFloat f1); ("currency", CStr "B|2.0|C")]] |}.

(** The second row has no date that can be read and the third an amount
    that is no number, so the amount column holds text.
[[
date,description,amount
31/01/2024,Coffee,12.5
not-a-date,Tea,3
01/02/2024,Rent,abc
2024-02-01,Salary,1000
]] *)
Definition two_bad_rows : DataFrame :=
  {| columns := ["date"; "description"; "amount"];
     iterrows :=
       [row [("date", CStr "31/01/2024"); ("description", CStr "Coffee");
             ("amount", CStr "12.5")];
        row [("date", CStr "not-a-date"); ("description", CStr "Tea");
             ("amount", CStr "3")];
        row [("date", CStr "01/02/2024"); ("description", CStr "Rent");
             ("amount", CStr "abc")];
        row [("date", CStr "2024-02-01"); ("description", CStr "Salary");
             ("amount", CStr "1000")]] |}.

(** The currency field of the second row is empty, which pandas reads as
    NaN.
[[
date,description,amount,currency
31/01/2024,Coffee,12.5,EUR
01/02/2024,Rent,750.25,
]] *)
Definition blank_currency : DataFrame :=
  {| columns := ["date"; "description"; "amount"; "currency"];
     iterrows :=
       [row [("date", CStr "31/01/2024"); ("description", CStr "Coffee");
             ("amount", CFloat f12_5); ("currency", CStr "EUR")];
        row [("date", CStr "01/02/2024"); ("description", CStr "Rent");
             ("amount", CFloat (PyFloat.of_decimal false 75025 (-2)));
             ("currency", CFloat PyFloat.nan)]] |}.

(** [[
date,description
31/01/2024,Coffee
]] *)
Definition no_amount : DataFrame :=
  {| columns := ["date"; "description"];
     iterrows :=
       [row [("date", CStr "31/01/2024"); ("description", CStr "Coffee")]] |}.

Definition csv_file (n : Z) : UploadFile :=
  {| content_type := Some "text/csv"; size := Some n; content := [] |}.

Definition empty_world : World := {| transactions := []; built := 0 |}.

End Demo.

(** ** server.py *)

Section Server.

(** [pd.read_csv(io.StringIO(content.decode('utf-8')))] on the bytes of the
    upload: the frame, or the exception of the decoder or of pandas. *)
Variable read_csv : list Z -> py DataFrame.

(** [dateutil.parser.parse]: the date it reads, [None] where it raises. *)
Variable date_parser_parse : string -> option Datetime.datetime.

(** The values [uuid.uuid4()] and [datetime.now(timezone.utc)] return for the
    [n]-th [Transaction] the process builds. *)
Variable uuid4 : nat -> string.
Variable utcnow : nat -> Datetime.datetime.

Definition parse_and_format (date_str : string) : py string :=
  match date_parser_parse date_str with
  | Some date_obj => Ok (Datetime.strftime_Ymd date_obj)
  | None => Raise (ValueError ("Unknown string format: " ++ date_str))
  end.

(** The body of the [try] of [normalize_date]. *)
Definition normalize_date_try (date_str : string) : py string :=
  if Py.contains "/" date_str then
    match Py.split "/" date_str with
    | [day; month; year] =>
        if (String.length year =? 4)%nat
        then Ok (year ++ "-" ++ Py.zfill 2 month ++ "-" ++ Py.zfill 2 day)
        else parse_and_format date_str
    | _ => parse_and_format date_str
    end
  else if Py.contains "-" date_str then parse_and_format date_str
  else parse_and_format date_str.

Definition normalize_date (date_str : string) : py string :=
  match normalize_date_try date_str with
  | Ok s => Ok s
  | Raise _ => Raise (ValueError ("Invalid date format: " ++ date_str))
  end.

Definition generate_hash (date description : string) (amount : PyFloat.float)
    (currency : string) : string :=
  let hash_string :=
    date ++ "|" ++ description ++ "|" ++ PyFloat.repr amount ++ "|" ++ currency in
  Hashlib.md5_hexdigest (Py.encode hash_string).

Definition required_columns : list string := ["date"; "description"; "amount"].

Definition validate_csv_content (df : DataFrame) : list string :=
  let missing_cols :=
    List.filter (fun col => negb (existsb (String.eqb col) (columns df)))
      required_columns in
  match missing_cols with
  | [] => []
  | _ :: _ => ["Missing required columns: " ++ Py.join ", " missing_cols]
  end.

(** What the [try] of the row loop computes before it looks into the
    store. *)
Record extracted := {
  x_date : string;
  x_description : string;
  x_amount : PyFloat.float;
  x_currency : string;
  x_balance : option PyFloat.float;
  x_hash_key : string
}.

Definition extract (row : Series) : py extracted :=
  c_date ← getitem row "date";
  let date_str := Py.strip (str_cell c_date) in
  c_description ← getitem row "description";
  let description := Py.strip (str_cell c_description) in
  c_amount ← getitem row "amount";
  amount ← float_cell c_amount;
  let currency :=
    match Py.strip (str_cell (default (CStr "USD") (row !! "currency"))) with
    | EmptyString => "USD"
    | s => s
    end in
  balance ←
    (if notna (row !! "balance")
     then c_balance ← getitem row "balance";
          b ← float_cell c_balance; Ok (Some b)
     else Ok None);
  normalized_date ← normalize_date date_str;
  let hash_key := generate_hash normalized_date description amount currency in
  Ok {| x_date := normalized_date; x_description := description;
        x_amount := amount; x_currency := currency; x_balance := balance;
        x_hash_key := hash_key |}.

(** The state the row loop carries: the store and the process state, the
    two counters and the errors collected so far. *)
Record loop_state := {
  world : World;
  n_imported : Z;
  n_skipped : Z;
  row_errors : list string
}.

Definition new_transaction (w : World) (x : extracted) : Transaction :=
  Transaction.Build (uuid4 (built w)) (x_date x) (x_description x)
    (x_amount x) (x_currency x) (x_balance x) (utcnow (built w))
    (x_hash_key x).

(** One turn of [for index, row in df.iterrows()]. *)
Definition process_row (st : loop_state) (index : Z) (row : Series) : loop_state :=
  match extract row with
  | Raise e =>
      {| world := world st; n_imported := n_imported st;
         n_skipped := n_skipped st;
         row_errors :=
           row_errors st
             ++ ["Row " ++ Py.str_int (index + 2) ++ ": " ++ str_exn e] |}
  | Ok x =>
      match find_one (x_hash_key x) (transactions (world st)) with
      | Some _ =>
          {| world := world st; n_imported := n_imported st;
             n_skipped := n_skipped st + 1; row_errors := row_errors st |}
      | None =>
          {| world :=
               {| transactions :=
                    insert_one (new_transaction (world st) x)
                      (transactions (world st));
                  built := S (built (world st)) |};
             n_imported := n_imported st + 1;
             n_skipped := n_skipped st; row_errors := row_errors st |}
      end
  end.

Fixpoint process_rows (st : loop_state) (index : Z) (rows : list Series)
  : loop_state :=
  match rows with
  | [] => st
  | row :: rest => process_rows (process_row st index row) (index + 1) rest
  end.

Definition max_size : Z := 10 * 1024 * 1024.

Definition upload_transactions_csv (file : UploadFile) (w : World)
  : response UploadResponse * World :=
  if match content_type file with
     | None => true
     | Some ct => String.eqb ct EmptyString
                  || negb (Py.contains "csv" (Py.lower ct))
     end
  then (HTTPException 415 (Message "Only CSV files are supported"), w)
  else if match size file with
          | None => false
          | Some n => negb (n =? 0) && (max_size <? n)
          end
  then (HTTPException 413 (Message "File size exceeds 10MB limit"), w)
  else
    match read_csv (content file) with
    | Raise e =>
        (HTTPException 500 (Message ("Error processing CSV: " ++ str_exn e)), w)
    | Ok df =>
        match validate_csv_content df with
        | (_ :: _) as validation_errors =>
            (HTTPException 422 (Errors validation_errors), w)
        | [] =>
            let st :=
              process_rows
                {| world := w; n_imported := 0; n_skipped := 0;
                   row_errors := [] |} 0 (iterrows df) in
            match row_errors st with
            | (_ :: _) as errs => (HTTPException 422 (Errors errs), world st)
            | [] =>
                (Return {| imported := n_imported st; skipped := n_skipped st |},
                 world st)
            end
        end
    end.

Definition to_response (txn : Transaction) : TransactionResponse :=
  TransactionResponse.Build (Transaction.id txn) (Transaction.date txn)
    (Transaction.description txn) (Transaction.amount txn)
    (Transaction.currency txn) (Transaction.balance txn)
    (Transaction.created_at txn).

(** [not s] for an optional query parameter. *)
Definition falsy (s : option string) : bool :=
  match s with
  | None => true
  | Some t => String.eqb t EmptyString
  end.

Definition bound (s : option string) : option string :=
  if falsy s then None else s.

(** The filter of [get_transactions], [now] being the value of
    [datetime.now(timezone.utc)] at the request. *)
Definition build_query (now : Datetime.datetime) (from_date to_date : option string)
  : py date_query :=
  if falsy from_date && falsy to_date then
    match Datetime.minus_days now 30 with
    | Some d => Ok {| gte := Some (Datetime.strftime_Ymd d); lte := None |}
    | None => Raise (OverflowError "date value out of range")
    end
  else Ok {| gte := bound from_date; lte := bound to_date |}.

Definition get_transactions (now : Datetime.datetime)
    (from_date to_date : option string) (page limit : Z) (w : World)
  : response TransactionsResponse :=
  if (page <? 1) || (limit <? 1) || (200 <? limit)
  then HTTPException 422 QueryValidation
  else
    match build_query now from_date to_date with
    | Raise e =>
        HTTPException 500
          (Message ("Error fetching transactions: " ++ str_exn e))
    | Ok query =>
        let total := count_documents query (transactions w) in
        let skip := (page - 1) * limit in
        let txns := find_sorted query skip limit (transactions w) in
        Return {| data := List.map to_response txns; page := page;
                  limit := limit; total := total |}
    end.

(** ** Properties of the validator, the date normalizer and the key *)

Lemma existsb_eqb_In (c : string) (l : list string) :
  existsb (String.eqb c) l = true <-> In c l.
Proof using.
  clear read_csv date_parser_parse uuid4 utcnow.
  rewrite existsb_exists. split.
  - intros [x [Hin Heq]]. apply String.eqb_eq in Heq. now subst.
  - intros Hin. exists c. split; [assumption | apply String.eqb_refl].
Qed.

(** The names of [required_columns] a table lacks, in that order, as the
    specification words it. *)
Definition missing_columns (df : DataFrame) : list string :=
  List.filter (fun c => bool_decide (c ∉ columns df)) required_columns.

Lemma missing_columns_filter (df : DataFrame) :
  List.filter (fun col => negb (existsb (String.eqb col) (columns df)))
    required_columns = missing_columns df.
Proof using.
  clear read_csv date_parser_parse uuid4 utcnow.
  unfold missing_columns. apply List.filter_ext. intros c.
  destruct (existsb (String.eqb c) (columns df)) eqn:E; simpl; symmetry.
  - apply bool_decide_eq_false. intros H. apply H.
    apply list_elem_of_In. now apply existsb_eqb_In.
  - apply bool_decide_eq_true. intros H. apply list_elem_of_In in H.
    apply existsb_eqb_In in H. congruence.
Qed.

(** C7. [validate_csv_content] returns the empty list exactly when [date],
    [description] and [amount] are all among the column names; otherwise it
    returns one string, the prefix followed by the missing names in that
    order joined by a comma and a space; a table that lacks only [amount]
    gets exactly [Missing required columns: amount]. *)
Theorem validate_csv_content_contract (df : DataFrame) :
  (validate_csv_content df = [] <->
   In "date" (columns df) /\ In "description" (columns df)
   /\ In "amount" (columns df))
  /\ (validate_csv_content df = [] \/
      validate_csv_content df =
        ["Missing required columns: " ++ Py.join ", " (missing_columns df)])
  /\ (In "date" (columns df) -> In "description" (columns df) ->
      ~ In "amount" (columns df) ->
      validate_csv_content df = ["Missing required columns: amount"]).
Proof using.
  clear read_csv date_parser_parse uuid4 utcnow.
  unfold validate_csv_content. rewrite missing_columns_filter.
  pose proof (fun c : string => list_elem_of_In (columns df) c) as Hin.
  unfold missing_columns, required_columns. simpl.
  repeat case_bool_decide;
    repeat match goal with
           | H : _ ∈ _ |- _ => apply Hin in H
           | H : ¬ (_ ∈ _) |- _ => rewrite Hin in H
           end;
    (split; [split | split]);
    try discriminate; try tauto; try (now left); try (now right);
    try (intros; exfalso; tauto); try (intros; reflexivity).
Qed.

Lemma split_two_contains (sep : ascii) (s : string) :
  (2 <= length (Py.split sep s))%nat ->
  Py.contains (String sep EmptyString) s = true.
Proof using.
  clear read_csv date_parser_parse uuid4 utcnow.
  induction s as [| c r IH]; simpl.
  - lia.
  - destruct (ascii_dec sep c) as [Heq | Hne].
    + intros _. destruct r; reflexivity.
    + assert (Ascii.eqb c sep = false) as ->
        by (apply Ascii.eqb_neq; congruence).
      simpl. destruct (Py.split sep r) as [| p ps] eqn:E; simpl.
      * lia.
      * intros H. apply IH. simpl. lia.
Qed.

(** C10. A string that splits at [/] into three parts, the third of length
    4, is reassembled as year, zero-filled month and zero-filled day; the
    parts are not looked into and the date parser is not asked, so the call
    returns whatever they hold. *)
Theorem normalize_date_slash_unvalidated (s day month year : string) :
  Py.split "/" s = [day; month; year] ->
  String.length year = 4%nat ->
  normalize_date s
  = Ok (year ++ "-" ++ Py.zfill 2 month ++ "-" ++ Py.zfill 2 day).
Proof.
  intros Hsplit Hlen. unfold normalize_date, normalize_date_try.
  rewrite (split_two_contains "/" s) by (rewrite Hsplit; simpl; lia).
  rewrite Hsplit, Hlen. reflexivity.
Qed.

(** Every failure of [normalize_date] is the [ValueError] that quotes the
    raw input. *)
Lemma normalize_date_error (s : string) (e : exn) :
  normalize_date s = Raise e -> e = ValueError ("Invalid date format: " ++ s).
Proof.
  unfold normalize_date. destruct (normalize_date_try s); congruence.
Qed.

(** C4. With a date parser that reads [2024-01-31] as that day and rejects
    [not-a-date]: [31/01/2024] becomes [2024-01-31], [2024-01-31] stays as
    it is, and [not-a-date] fails with the error whose message holds the
    raw input, as every failure of the normalizer does. *)
Theorem normalize_date_vectors (d : Datetime.datetime) :
  date_parser_parse "2024-01-31" = Some d ->
  Datetime.year d = 2024 -> Datetime.month d = 1 -> Datetime.day d = 31 ->
  date_parser_parse "not-a-date" = None ->
  normalize_date "31/01/2024" = Ok "2024-01-31"
  /\ normalize_date "2024-01-31" = Ok "2024-01-31"
  /\ normalize_date "not-a-date"
     = Raise (ValueError "Invalid date format: not-a-date")
  /\ (forall s e, normalize_date s = Raise e ->
      e = ValueError ("Invalid date format: " ++ s)).
Proof.
  intros Hiso Hy Hm Hd Hbad. repeat split.
  - unfold normalize_date, normalize_date_try, parse_and_format.
    change (Py.contains "/" "2024-01-31") with false.
    change (Py.contains "-" "2024-01-31") with true.
    cbv iota. rewrite Hiso. unfold Datetime.strftime_Ymd.
    rewrite Hy, Hm, Hd. reflexivity.
  - unfold normalize_date, normalize_date_try, parse_and_format.
    change (Py.contains "/" "not-a-date") with false.
    change (Py.contains "-" "not-a-date") with true.
    cbv iota. rewrite Hbad. reflexivity.
  - apply normalize_date_error.
Qed.


(** ** Properties of the upload handler *)

(** The declared content type holds [csv], whatever the case. *)
Definition declares_csv (file : UploadFile) : bool :=
  match content_type file with
  | Some ct => Py.contains "csv" (Py.lower ct)
  | None => false
  end.

(** The reported size is above 10 MiB. *)
Definition too_large (file : UploadFile) : bool :=
  match size file with
  | Some n => 10 * 1024 * 1024 <? n
  | None => false
  end.

Lemma media_check (file : UploadFile) :
  match content_type file with
  | None => true
  | Some ct => String.eqb ct EmptyString
               || negb (Py.contains "csv" (Py.lower ct))
  end = negb (declares_csv file).
Proof using.
  clear read_csv date_parser_parse uuid4 utcnow.
  unfold declares_csv. destruct (content_type file) as [ct |]; [| reflexivity].
  destruct (String.eqb ct EmptyString) eqn:E; [| reflexivity].
  apply String.eqb_eq in E. subst ct. reflexivity.
Qed.

Lemma size_check (file : UploadFile) :
  match size file with
  | None => false
  | Some n => negb (n =? 0) && (max_size <? n)
  end = too_large file.
Proof using.
  clear read_csv date_parser_parse uuid4 utcnow.
  unfold too_large, max_size. destruct (size file) as [n |]; [| reflexivity].
  destruct (Z.ltb_spec (10 * 1024 * 1024) n); [| apply andb_false_r].
  destruct (Z.eqb_spec n 0); [lia | reflexivity].
Qed.

(** The handler as a cascade over [declares_csv] and [too_large]. *)
Lemma upload_unfold (file : UploadFile) (w : World) :
  upload_transactions_csv file w =
  if negb (declares_csv file)
  then (HTTPException 415 (Message "Only CSV files are supported"), w)
  else if too_large file
  then (HTTPException 413 (Message "File size exceeds 10MB limit"), w)
  else
    match read_csv (content file) with
    | Raise e =>
        (HTTPException 500 (Message ("Error processing CSV: " ++ str_exn e)), w)
    | Ok df =>
        match validate_csv_content df with
        | (_ :: _) as validation_errors =>
            (HTTPException 422 (Errors validation_errors), w)
        | [] =>
            let st :=
              process_rows
                {| world := w; n_imported := 0; n_skipped := 0;
                   row_errors := [] |} 0 (iterrows df) in
            match row_errors st with
            | (_ :: _) as errs => (HTTPException 422 (Errors errs), world st)
            | [] =>
                (Return {| imported := n_imported st; skipped := n_skipped st |},
                 world st)
            end
        end
    end.
Proof.
  unfold upload_transactions_csv. rewrite media_check, size_check. reflexivity.
Qed.

(** C3, as the handler orders its checks. A content type without [csv]
    fails with 415; with an accepted content type, a size above 10 MiB fails
    with 413; with both accepted, a parsed table that lacks a required
    column fails with 422 and the validator's list. In each case the world
    is returned as it was, and nothing of the rows enters the answer. *)
Theorem structural_failures_leave_store (file : UploadFile) (w : World) :
  (declares_csv file = false ->
   upload_transactions_csv file w
   = (HTTPException 415 (Message "Only CSV files are supported"), w))
  /\ (declares_csv file = true -> too_large file = true ->
      upload_transactions_csv file w
      = (HTTPException 413 (Message "File size exceeds 10MB limit"), w))
  /\ (forall df,
        declares_csv file = true -> too_large file = false ->
        read_csv (content file) = Ok df ->
        validate_csv_content df <> [] ->
        upload_transactions_csv file w
        = (HTTPException 422 (Errors (validate_csv_content df)), w)).
Proof.
  rewrite upload_unfold. repeat split.
  - intros ->. reflexivity.
  - intros -> ->. reflexivity.
  - intros df -> -> -> Hne. simpl.
    destruct (validate_csv_content df); [congruence | reflexivity].
Qed.

(** The keys of the stored documents, in insertion order. *)
Definition keys (docs : list Transaction) : list string :=
  List.map Transaction.hash_key docs.

Lemma find_one_None (h : string) (docs : list Transaction) :
  find_one h docs = None <-> ~ In h (keys docs).
Proof using.
  clear read_csv date_parser_parse uuid4 utcnow.
  unfold find_one, keys. induction docs as [| t r IH]; simpl.
  - tauto.
  - destruct (String.eqb_spec (Transaction.hash_key t) h) as [Heq | Hne].
    + split; [discriminate | intros H; exfalso; apply H; now left].
    + rewrite IH. tauto.
Qed.

Lemma find_one_Some (h : string) (docs : list Transaction) (t : Transaction) :
  find_one h docs = Some t -> In h (keys docs).
Proof using.
  clear read_csv date_parser_parse uuid4 utcnow.
  intros H. destruct (in_dec string_dec h (keys docs)) as [Hin | Hnin].
  - assumption.
  - apply find_one_None in Hnin. congruence.
Qed.

(** The message the loop records for the row at [position] (counted from
    0) when its extraction raises. *)
Definition row_error (position : nat) (row : Series) : option string :=
  match extract row with
  | Raise e =>
      Some ("Row " ++ Py.str_int (Z.of_nat position + 2) ++ ": " ++ str_exn e)
  | Ok _ => None
  end.

(** The messages of the rows that raise, in row order. *)
Definition expected_errors (rows : list Series) : list string :=
  omap id (imap row_error rows).

Ltac step_row row :=
  unfold process_row;
  let x := fresh "x" in
  let e := fresh "e" in
  let F := fresh "F" in
  let E := fresh "E" in
  destruct (extract row) as [x | e] eqn:E;
  [ destruct (find_one (x_hash_key x) _) eqn:F | ]; simpl.

Lemma process_row_errors (st : loop_state) (k : nat) (row : Series) :
  row_errors (process_row st (Z.of_nat k) row)
  = (row_errors st ++ option_list (row_error k row))%list.
Proof.
  unfold row_error. step_row row; now rewrite ?app_nil_r.
Qed.

Lemma process_rows_errors (rows : list Series) :
  forall (st : loop_state) (k : nat),
    row_errors (process_rows st (Z.of_nat k) rows)
    = (row_errors st ++ omap id (imap (fun i => row_error (k + i)%nat) rows))%list.
Proof.
  induction rows as [| row rest IH]; intros st k; simpl.
  - now rewrite app_nil_r.
  - replace (Z.of_nat k + 1) with (Z.of_nat (S k)) by lia.
    rewrite IH, process_row_errors, <- app_assoc. f_equal.
    rewrite Nat.add_0_r.
    rewrite (imap_ext (fun i => row_error (S k + i)%nat)
               ((fun i => row_error (k + i)%nat) ∘ S)).
    + destruct (row_error k row); reflexivity.
    + intros i x _. simpl. f_equal. lia.
Qed.

Lemma process_rows_count (rows : list Series) :
  forall (st : loop_state) (index : Z),
    let st' := process_rows st index rows in
    n_imported st' + n_skipped st' + Z.of_nat (length (row_errors st'))
    = n_imported st + n_skipped st + Z.of_nat (length (row_errors st))
      + Z.of_nat (length rows).
Proof.
  induction rows as [| row rest IH]; intros st index; simpl.
  - lia.
  - rewrite IH. step_row row; rewrite ?length_app; simpl; lia.
Qed.

Lemma process_row_store (st : loop_state) (index : Z) (row : Series) :
  exists new,
    transactions (world (process_row st index row))
    = (transactions (world st) ++ new)%list
    /\ Z.of_nat (length new)
       = n_imported (process_row st index row) - n_imported st.
Proof.
  step_row row.
  - exists []. rewrite app_nil_r. split; [reflexivity | simpl; lia].
  - eexists [_]. split; [reflexivity | simpl; lia].
  - exists []. rewrite app_nil_r. split; [reflexivity | simpl; lia].
Qed.

Lemma process_rows_store (rows : list Series) :
  forall (st : loop_state) (index : Z),
    let st' := process_rows st index rows in
    exists new,
      transactions (world st') = (transactions (world st) ++ new)%list
      /\ Z.of_nat (length new) = n_imported st' - n_imported st.
Proof.
  induction rows as [| row rest IH]; intros st index; simpl.
  - exists []. rewrite app_nil_r. split; [reflexivity | simpl; lia].
  - destruct (IH (process_row st index row) (index + 1)) as (new & Hs & Hl).
    destruct (process_row_store st index row) as (new1 & Hs1 & Hl1).
    exists (new1 ++ new)%list. rewrite Hs, Hs1, app_assoc.
    split; [reflexivity |]. rewrite length_app. lia.
Qed.

Lemma process_rows_keeps (rows : list Series) (st : loop_state) (index : Z)
    (h : string) :
  In h (keys (transactions (world st))) ->
  In h (keys (transactions (world (process_rows st index rows)))).
Proof.
  intros H. destruct (process_rows_store rows st index) as (new & Hs & _).
  rewrite Hs. unfold keys. rewrite List.map_app. apply in_or_app. now left.
Qed.

Lemma process_rows_attempts (rows : list Series) :
  forall (st : loop_state) (index : Z) (row : Series) (x : extracted),
    In row rows -> extract row = Ok x ->
    In (x_hash_key x)
       (keys (transactions (world (process_rows st index rows)))).
Proof.
  induction rows as [| r rest IH]; intros st index row x Hin Hx; simpl.
  - destruct Hin.
  - destruct Hin as [-> | Hin]; [| now apply (IH _ _ row)].
    apply process_rows_keeps. unfold process_row. rewrite Hx.
    destruct (find_one (x_hash_key x) _) eqn:F; simpl.
    + now apply find_one_Some in F.
    + unfold insert_one, keys. rewrite List.map_app. apply in_or_app.
      right. now left.
Qed.


(** The deduplication key the loop computes for a row, when the row
    parses. *)
Definition row_key (row : Series) : option string :=
  match extract row with
  | Ok x => Some (x_hash_key x)
  | Raise _ => None
  end.

Lemma process_rows_all_new (rows : list Series) :
  forall (ks : list string) (st : loop_state) (index : Z),
    List.map row_key rows = List.map Some ks ->
    NoDup ks ->
    (forall k, In k ks -> ~ In k (keys (transactions (world st)))) ->
    let st' := process_rows st index rows in
    n_imported st' = n_imported st + Z.of_nat (length rows)
    /\ n_skipped st' = n_skipped st
    /\ row_errors st' = row_errors st
    /\ keys (transactions (world st'))
       = (keys (transactions (world st)) ++ ks)%list.
Proof.
  induction rows as [| row rest IH]; intros ks st index Hks Hnd Hfresh.
  - destruct ks; [| discriminate]. simpl. rewrite app_nil_r.
    repeat split; lia.
  - destruct ks as [| k ks]; [discriminate |].
    simpl in Hks. injection Hks as Hk Hks.
    apply NoDup_cons in Hnd as [Hk_new Hnd].
    unfold row_key in Hk. destruct (extract row) as [x | e] eqn:E;
      [| discriminate].
    injection Hk as Hk.
    assert (find_one (x_hash_key x) (transactions (world st)) = None) as F.
    { apply find_one_None. rewrite Hk. apply Hfresh. now left. }
    cbn [process_rows]. cbv zeta.
    assert (process_row st index row
            = {| world :=
                   {| transactions :=
                        insert_one (new_transaction (world st) x)
                          (transactions (world st));
                      built := S (built (world st)) |};
                 n_imported := n_imported st + 1;
                 n_skipped := n_skipped st;
                 row_errors := row_errors st |}) as Hstep
      by (unfold process_row; now rewrite E, F).
    rewrite Hstep.
    edestruct (IH ks) as (Hi & Hsk & He & Hkeys);
      [exact Hks | exact Hnd | | rewrite Hi, Hsk, He, Hkeys].
    + intros k' Hin. simpl. unfold insert_one, keys.
      rewrite List.map_app, in_app_iff. simpl.
      intros [Hold | [Heq | []]].
      * apply (Hfresh k'); [now right | exact Hold].
      * apply Hk_new. rewrite <- Hk, Heq. apply list_elem_of_In, Hin.
    + simpl. unfold insert_one, keys. rewrite List.map_app, <- app_assoc.
      simpl. rewrite Hk. repeat split. lia.
Qed.

Lemma process_rows_all_present (rows : list Series) :
  forall (ks : list string) (st : loop_state) (index : Z),
    List.map row_key rows = List.map Some ks ->
    (forall k, In k ks -> In k (keys (transactions (world st)))) ->
    let st' := process_rows st index rows in
    n_imported st' = n_imported st
    /\ n_skipped st' = n_skipped st + Z.of_nat (length rows)
    /\ row_errors st' = row_errors st
    /\ world st' = world st.
Proof.
  induction rows as [| row rest IH]; intros ks st index Hks Hold.
  - simpl. repeat split; lia.
  - destruct ks as [| k ks]; [discriminate |].
    simpl in Hks. injection Hks as Hk Hks.
    unfold row_key in Hk. destruct (extract row) as [x | e] eqn:E;
      [| discriminate].
    injection Hk as Hk.
    destruct (find_one (x_hash_key x) (transactions (world st))) as [t |] eqn:F.
    2:{ apply find_one_None in F. exfalso. apply F. rewrite Hk.
        apply Hold. now left. }
    cbn [process_rows]. cbv zeta.
    assert (process_row st index row
            = {| world := world st; n_imported := n_imported st;
                 n_skipped := n_skipped st + 1;
                 row_errors := row_errors st |}) as Hstep
      by (unfold process_row; now rewrite E, F).
    rewrite Hstep.
    edestruct (IH ks) as (Hi & Hsk & He & Hw);
      [exact Hks | | rewrite Hi, Hsk, He, Hw].
    + intros k' Hin. simpl. apply Hold. now right.
    + simpl. repeat split. lia.
Qed.

(** C1, for rows with pairwise distinct keys. Let every row of an accepted
    file parse and let the keys of its rows, [ks], be pairwise distinct.
    Uploaded into an empty store the file imports every row and skips none;
    uploaded again at once it imports none and skips every row; the store
    holds one document per row after the first upload, with the keys [ks],
    and the second upload leaves it as it is. *)
Theorem upload_twice_idempotent (file : UploadFile) (df : DataFrame)
    (ks : list string) (w : World) :
  declares_csv file = true -> too_large file = false ->
  read_csv (content file) = Ok df ->
  validate_csv_content df = [] ->
  List.map row_key (iterrows df) = List.map Some ks ->
  NoDup ks ->
  transactions w = [] ->
  let K := Z.of_nat (length (iterrows df)) in
  let first := upload_transactions_csv file w in
  let second := upload_transactions_csv file (snd first) in
  fst first = Return {| imported := K; skipped := 0 |}
  /\ fst second = Return {| imported := 0; skipped := K |}
  /\ length (transactions (snd first)) = length (iterrows df)
  /\ keys (transactions (snd first)) = ks
  /\ transactions (snd second) = transactions (snd first).
Proof.
  intros Hmedia Hsize Hread Hvalid Hks Hnd Hempty K first second.
  assert (forall w', upload_transactions_csv file w'
          = let st :=
              process_rows
                {| world := w'; n_imported := 0; n_skipped := 0;
                   row_errors := [] |} 0 (iterrows df) in
            match row_errors st with
            | (_ :: _) as errs => (HTTPException 422 (Errors errs), world st)
            | [] =>
                (Return {| imported := n_imported st; skipped := n_skipped st |},
                 world st)
            end) as Hup.
  { intros w'. rewrite upload_unfold, Hmedia, Hsize, Hread, Hvalid.
    reflexivity. }
  destruct (process_rows_all_new (iterrows df) ks
              {| world := w; n_imported := 0; n_skipped := 0;
                 row_errors := [] |} 0 Hks Hnd) as (Hi & Hsk & He & Hkeys).
  { intros k _. simpl. rewrite Hempty. simpl. tauto. }
  simpl in Hi, Hsk, He, Hkeys. rewrite Hempty in Hkeys. simpl in Hkeys.
  assert (first
          = (Return {| imported := K; skipped := 0 |},
             world (process_rows
                      {| world := w; n_imported := 0; n_skipped := 0;
                         row_errors := [] |} 0 (iterrows df)))) as Hfirst.
  { subst first. rewrite Hup. cbv zeta. rewrite He, Hi, Hsk. reflexivity. }
  destruct (process_rows_all_present (iterrows df) ks
              {| world := snd first; n_imported := 0; n_skipped := 0;
                 row_errors := [] |} 0 Hks) as (Hi2 & Hsk2 & He2 & Hw2).
  { intros k Hin. simpl. rewrite Hfirst. simpl. now rewrite Hkeys. }
  simpl in Hi2, Hsk2, He2, Hw2.
  assert (second = (Return {| imported := 0; skipped := K |}, snd first))
    as Hsecond.
  { subst second. rewrite Hup. cbv zeta. rewrite He2, Hi2, Hsk2, Hw2.
    reflexivity. }
  rewrite Hsecond, Hfirst. simpl. repeat split.
  - rewrite <- (length_map Transaction.hash_key). fold (keys
      (transactions (world (process_rows
         {| world := w; n_imported := 0; n_skipped := 0; row_errors := [] |}
         0 (iterrows df))))).
    rewrite Hkeys. rewrite <- (length_map Some ks), <- Hks.
    now rewrite length_map.
  - exact Hkeys.
Qed.

(** ** Separation of the deduplication key *)




















(** ** Properties of the query *)

(** [a] comes before [b] in a list sorted by date, descending. *)
Definition date_desc (a b : Transaction) : Prop :=
  String.leb (Transaction.date b) (Transaction.date a) = true.

Lemma insert_desc_perm (t : Transaction) (l : list Transaction) :
  Permutation (insert_desc t l) (t :: l).
Proof using.
  clear read_csv date_parser_parse uuid4 utcnow.
  induction l as [| u r IH]; simpl.
  - reflexivity.
  - destruct (String.leb (Transaction.date u) (Transaction.date t)).
    + reflexivity.
    + rewrite IH. apply perm_swap.
Qed.

Lemma sort_date_desc_perm (l : list Transaction) :
  Permutation (sort_date_desc l) l.
Proof using.
  clear read_csv date_parser_parse uuid4 utcnow.
  induction l as [| t r IH]; simpl.
  - reflexivity.
  - rewrite insert_desc_perm. now constructor.
Qed.

Lemma insert_desc_sorted (t : Transaction) (l : list Transaction) :
  Sorted date_desc l -> Sorted date_desc (insert_desc t l).
Proof using.
  clear read_csv date_parser_parse uuid4 utcnow.
  induction l as [| u r IH]; simpl; intros Hs.
  - repeat constructor.
  - destruct (String.leb (Transaction.date u) (Transaction.date t)) eqn:E.
    + constructor; [exact Hs | constructor; exact E].
    + apply Sorted_inv in Hs as [Hr Hhd]. constructor; [now apply IH |].
      assert (date_desc u t) as Hut.
      { unfold date_desc.
        destruct (String.leb_total (Transaction.date u) (Transaction.date t));
          congruence. }
      destruct r as [| v r']; simpl.
      * now constructor.
      * destruct (String.leb (Transaction.date v) (Transaction.date t)).
        -- now constructor.
        -- constructor. now apply HdRel_inv in Hhd.
Qed.

Lemma sort_date_desc_sorted (l : list Transaction) :
  Sorted date_desc (sort_date_desc l).
Proof using.
  clear read_csv date_parser_parse uuid4 utcnow.
  induction l as [| t r IH]; simpl.
  - constructor.
  - now apply insert_desc_sorted.
Qed.

Lemma Sorted_skipn (l : list Transaction) :
  Sorted date_desc l -> forall n, Sorted date_desc (skipn n l).
Proof using.
  clear read_csv date_parser_parse uuid4 utcnow.
  induction l as [| t r IH]; intros Hs n; destruct n; simpl; auto.
  apply IH. now apply Sorted_inv in Hs.
Qed.

Lemma Sorted_firstn (l : list Transaction) :
  Sorted date_desc l -> forall n, Sorted date_desc (firstn n l).
Proof using.
  clear read_csv date_parser_parse uuid4 utcnow.
  induction l as [| t r IH]; intros Hs n; destruct n; simpl; auto.
  apply Sorted_inv in Hs as [Hr Hhd]. constructor; [now apply IH |].
  destruct r as [| u r'], n; simpl; constructor.
  now apply HdRel_inv in Hhd.
Qed.

(** A query parameter is given when it is present and not empty. *)
Definition given (p : option string) (v : string) : Prop :=
  p = Some v /\ v <> EmptyString.

(** The dates the specification selects: with neither bound given, those
    from the day 30 days before [now] on; otherwise those within the bounds
    that are given, both inclusive, in the order of [String.leb]. *)
Definition in_window (now : Datetime.datetime) (from_date to_date : option string)
    (date : string) : Prop :=
  ((forall v, ~ given from_date v) /\ (forall v, ~ given to_date v)
   /\ exists d, Datetime.minus_days now 30 = Some d
                /\ String.leb (Datetime.strftime_Ymd d) date = true)
  \/ ((exists v, given from_date v \/ given to_date v)
      /\ (forall a, given from_date a -> String.leb a date = true)
      /\ (forall b, given to_date b -> String.leb date b = true)).

Lemma bound_given (p : option string) (v : string) :
  bound p = Some v <-> given p v.
Proof using.
  clear read_csv date_parser_parse uuid4 utcnow.
  unfold bound, falsy, given. destruct p as [t |].
  - destruct (String.eqb_spec t EmptyString) as [-> | Hne].
    + split; [discriminate | intros [[= <-] H]; congruence].
    + split; [intros [= <-]; tauto | tauto].
  - split; [discriminate | intros [? _]; discriminate].
Qed.

Lemma falsy_not_given (p : option string) :
  falsy p = true <-> forall v, ~ given p v.
Proof using.
  clear read_csv date_parser_parse uuid4 utcnow.
  split.
  - intros H v Hg. apply bound_given in Hg. unfold bound in Hg.
    rewrite H in Hg. discriminate.
  - intros H. destruct (falsy p) eqn:E; [reflexivity |].
    destruct p as [t |]; [| discriminate]. exfalso. apply (H t).
    apply bound_given. unfold bound. now rewrite E.
Qed.

Lemma matches_bounds (from_date to_date : option string) (t : Transaction) :
  matches {| gte := bound from_date; lte := bound to_date |} t = true
  <-> (forall a, given from_date a -> String.leb a (Transaction.date t) = true)
      /\ (forall b, given to_date b -> String.leb (Transaction.date t) b = true).
Proof using.
  clear read_csv date_parser_parse uuid4 utcnow.
  unfold matches. simpl. rewrite andb_true_iff.
  pose proof (bound_given from_date) as Hf.
  pose proof (bound_given to_date) as Ht.
  destruct (bound from_date) as [a |], (bound to_date) as [b |]; split.
  all: try (intros [H1 H2]; split; intros v Hv;
            [apply Hf in Hv | apply Ht in Hv]; congruence).
  all: intros [H1 H2]; split; try reflexivity;
    first [apply H1; now apply Hf | apply H2; now apply Ht].
Qed.

(** C8. For a page from 1 on and a limit from 1 to 200, and a clock more
    than 30 days after 0001-01-01: the answer is built from the stored
    records whose date is in the window of the specification; [total]
    counts all of them, whatever the page and the limit; [data] is the
    stretch of at most [limit] records after the first [(page-1)*limit] of
    these records sorted by date, descending, and so is sorted itself. *)
Theorem get_transactions_contract (now d : Datetime.datetime)
    (from_date to_date : option string) (page limit : Z) (w : World) :
  1 <= page -> 1 <= limit <= 200 ->
  Datetime.minus_days now 30 = Some d ->
  exists (keep : Transaction -> bool) (sorted : list Transaction),
    (forall t, keep t = true
               <-> in_window now from_date to_date (Transaction.date t))
    /\ Permutation sorted (List.filter keep (transactions w))
    /\ Sorted date_desc sorted
    /\ Sorted date_desc
         (firstn (Z.to_nat limit)
            (skipn (Z.to_nat ((page - 1) * limit)) sorted))
    /\ (length (firstn (Z.to_nat limit)
                  (skipn (Z.to_nat ((page - 1) * limit)) sorted))
        <= Z.to_nat limit)%nat
    /\ get_transactions now from_date to_date page limit w
       = Return
           {| data :=
                List.map to_response
                  (firstn (Z.to_nat limit)
                     (skipn (Z.to_nat ((page - 1) * limit)) sorted));
              page := page;
              limit := limit;
              total := Z.of_nat (length (List.filter keep (transactions w))) |}.
Proof using.
  clear read_csv date_parser_parse uuid4 utcnow.
  intros Hpage Hlimit Hd.
  assert ((page <? 1) || (limit <? 1) || (200 <? limit) = false) as Hq.
  { destruct (Z.ltb_spec page 1), (Z.ltb_spec limit 1),
      (Z.ltb_spec 200 limit); try lia; reflexivity. }
  unfold get_transactions, build_query. rewrite Hq, Hd.
  destruct (falsy from_date && falsy to_date) eqn:E.
  - apply andb_true_iff in E as [Ef Et].
    exists (matches {| gte := Some (Datetime.strftime_Ymd d); lte := None |}).
    eexists. split; [| split; [apply sort_date_desc_perm |
      split; [apply sort_date_desc_sorted | split;
        [apply Sorted_firstn, Sorted_skipn, sort_date_desc_sorted | split;
          [apply firstn_le_length | reflexivity]]]]].
    intros t. unfold matches, in_window. simpl. rewrite andb_true_r.
    pose proof (proj1 (falsy_not_given _) Ef) as Hnf.
    pose proof (proj1 (falsy_not_given _) Et) as Hnt. split.
    + intros H. left. split; [exact Hnf |]. split; [exact Hnt |].
      exists d. tauto.
    + intros [(_ & _ & d' & Hd' & H) | ([v [Hv | Hv]] & _)].
      * congruence.
      * now apply Hnf in Hv.
      * now apply Hnt in Hv.
  - exists (matches {| gte := bound from_date; lte := bound to_date |}).
    eexists. split; [| split; [apply sort_date_desc_perm |
      split; [apply sort_date_desc_sorted | split;
        [apply Sorted_firstn, Sorted_skipn, sort_date_desc_sorted | split;
          [apply firstn_le_length | reflexivity]]]]].
    intros t. rewrite matches_bounds. unfold in_window. split.
    + intros H. right. split; [| exact H].
      apply andb_false_iff in E as [E | E].
      * destruct from_date as [v |]; [| discriminate]. exists v. left.
        apply bound_given. unfold bound. now rewrite E.
      * destruct to_date as [v |]; [| discriminate]. exists v. right.
        apply bound_given. unfold bound. now rewrite E.
    + intros [(Hf & Ht & _) | (_ & H)]; [| exact H].
      rewrite (proj2 (falsy_not_given _) Hf), (proj2 (falsy_not_given _) Ht)
        in E.
      discriminate.
Qed.

(** ** The currency of a row *)

(** The currency the loop takes from a row that parses: [USD] when the
    table has no such column or the text of the cell is blank, the stripped
    text of the cell otherwise. *)
Lemma extract_currency (row : Series) (x : extracted) :
  extract row = Ok x ->
  x_currency x =
  match row !! "currency" with
  | None => "USD"
  | Some c =>
      match Py.strip (str_cell c) with
      | EmptyString => "USD"
      | s => s
      end
  end.
Proof.
  unfold extract, mbind, py_bind. intros H.
  repeat match type of H with
         | context [match ?c with Ok _ => _ | Raise _ => _ end] =>
             destruct c; try discriminate
         | context [if ?b then _ else _] => destruct b
         end;
    injection H as <-; cbn [x_currency];
    destruct (row !! "currency"); reflexivity.
Qed.

(** An empty field is NaN in the frame, and the text of NaN is [nan]. *)
Lemma extract_currency_nan (row : Series) (x : extracted) :
  row !! "currency" = Some (CFloat PyFloat.nan) ->
  extract row = Ok x -> x_currency x = "nan".
Proof.
  intros Hc Hx. rewrite (extract_currency row x Hx), Hc. reflexivity.
Qed.

End Server.

(** ** The library models on known values *)

(** The test suite of RFC 1321, section A.5. *)
Example md5_rfc1321 :
  Hashlib.md5_hexdigest (Py.encode EmptyString)
  = "d41d8cd98f00b204e9800998ecf8427e"
  /\ Hashlib.md5_hexdigest (Py.encode "a")
     = "0cc175b9c0f1b6a831c399e269772661"
  /\ Hashlib.md5_hexdigest (Py.encode "abc")
     = "900150983cd24fb0d6963f7d28e17f72"
  /\ Hashlib.md5_hexdigest (Py.encode "message digest")
     = "f96b697d7cb7938d525a2f31aaf161d0"
  /\ Hashlib.md5_hexdigest (Py.encode "abcdefghijklmnopqrstuvwxyz")
     = "c3fcd3d76192e4007dfb496cca67e13b"
  /\ Hashlib.md5_hexdigest
       (Py.encode
          "12345678901234567890123456789012345678901234567890123456789012345678901234567890")
     = "57edf4a22be3c955ac49da2e2107b67a".
Proof. repeat split; vm_compute; reflexivity. Qed.

(** [repr(float(s))] in CPython for a few texts. *)
Example float_repr_values :
  List.map (fun s => option_map PyFloat.repr (PyFloat.parse s))
    ["12.5"; "12.50"; "0.1"; "1000"; "-750.25"; "1e16"; "1e15"; "0.0001";
     "0.00001"; "1_000.5"; " 7.25 "; "9007199254740993"; "5e-324"; "1e400";
     "-0.0"; "nan"; "-Infinity"; "abc"; "1e"; "12,5"]
  = [Some "12.5"; Some "12.5"; Some "0.1"; Some "1000.0"; Some "-750.25";
     Some "1e+16"; Some "1000000000000000.0"; Some "0.0001"; Some "1e-05";
     Some "1000.5"; Some "7.25"; Some "9007199254740992.0"; Some "5e-324";
     Some "inf"; Some "-0.0"; Some "nan"; Some "-inf"; None; None; None].
Proof. vm_compute. reflexivity. Qed.

(** [date.fromordinal], [date.toordinal] and [strftime] in CPython. *)
Example calendar_values :
  Datetime.ord2ymd 1 = (1, 1, 1)
  /\ Datetime.ord2ymd 738946 = (2024, 3, 1)
  /\ Datetime.ord2ymd 738945 = (2024, 2, 29)
  /\ Datetime.ord2ymd 3652059 = (9999, 12, 31)
  /\ Datetime.toordinal (Datetime.Build 2024 3 1 0 0 0 0) = 738946
  /\ option_map Datetime.strftime_Ymd
       (Datetime.minus_days (Datetime.Build 2024 3 1 12 0 0 0) 30)
     = Some "2024-01-31"
  /\ Datetime.minus_days (Datetime.Build 1 1 20 0 0 0 0) 30 = None.
Proof. repeat split; vm_compute; reflexivity. Qed.

(** [str] methods and [repr] in CPython. *)
Example str_values :
  Py.split "/" "31/01/2024" = ["31"; "01"; "2024"]
  /\ Py.split "/" "/a//" = [EmptyString; "a"; EmptyString; EmptyString]
  /\ List.map (Py.zfill 2) ["1"; "12"; "123"; "-"; "+1"; "a"; EmptyString]
     = ["01"; "12"; "123"; "-0"; "+1"; "0a"; "00"]
  /\ Py.strip "  a b  " = "a b"
  /\ Py.lower "Text/CSV" = "text/csv"
  /\ Py.contains "csv" "text/csv" = true
  /\ Py.contains "csv" "text/plain" = false
  /\ Py.repr_str "abc" = "'abc'"
  /\ List.map Py.str_int [0; -12; 305] = ["0"; "-12"; "305"].
Proof. repeat split; vm_compute; reflexivity. Qed.

(** ** The handlers at concrete inputs *)

(** The upload handler with [Demo]'s libraries, [pd.read_csv] giving [df]. *)
Definition demo_upload (df : DataFrame) (file : UploadFile) (w : World)
  : response UploadResponse * World :=
  upload_transactions_csv (fun _ => Ok df) Demo.iso_parse Demo.uuid4
    Demo.utcnow file w.

Definition three_keys : list string :=
  ["7c96978b015345849a675232950af003"; "054c6de09e964d30546835f30e83ed90";
   "6d69c450571c1de22c5576d3d8abb06a"].

(** C1 on three rows: 3 imported, then 3 skipped, 3 documents stored. *)
Lemma upload_twice_three_rows :
  let first := demo_upload Demo.three_rows (Demo.csv_file 100) Demo.empty_world in
  let second := demo_upload Demo.three_rows (Demo.csv_file 100) (snd first) in
  fst first = Return {| imported := 3; skipped := 0 |}
  /\ fst second = Return {| imported := 0; skipped := 3 |}
  /\ length (transactions (snd first)) = 3%nat
  /\ keys (transactions (snd first)) = three_keys
  /\ transactions (snd second) = transactions (snd first).
Proof.
  apply (upload_twice_idempotent (fun _ => Ok Demo.three_rows) Demo.iso_parse
           Demo.uuid4 Demo.utcnow (Demo.csv_file 100) Demo.three_rows
           three_keys Demo.empty_world).
  - vm_compute; reflexivity.
  - vm_compute; reflexivity.
  - reflexivity.
  - vm_compute; reflexivity.
  - vm_compute; reflexivity.
  - apply (bool_decide_unpack _). vm_compute. exact I.
  - reflexivity.
Defined.

(** C1 as stated fails: the two rows of [Demo.bar_rows] differ in
    description, amount and currency, and the first upload into an empty
    store imports one of them and skips the other. *)
Lemma distinct_rows_one_import :
  exists x1 x2,
    List.map (extract Demo.iso_parse) (iterrows Demo.bar_rows) = [Ok x1; Ok x2]
    /\ x_description x1 <> x_description x2
    /\ x_amount x1 <> x_amount x2
    /\ x_currency x1 <> x_currency x2
    /\ x_hash_key x1 = x_hash_key x2
    /\ fst (demo_upload Demo.bar_rows (Demo.csv_file 100) Demo.empty_world)
       = Return {| imported := 1; skipped := 1 |}
    /\ length (transactions
                 (snd (demo_upload Demo.bar_rows (Demo.csv_file 100)
                         Demo.empty_world))) = 1%nat.
Proof.
  eexists. eexists. split; [vm_compute; reflexivity |].
  split; [| split; [| split; [| split; [| split]]]];
    first [vm_compute; reflexivity | vm_compute; discriminate].
Qed.


(** What C2 says of that table, evaluated: the two messages, and the two
    good rows stored although the upload fails. *)
Example two_bad_rows_response :
  fst (demo_upload Demo.two_bad_rows (Demo.csv_file 100) Demo.empty_world)
  = HTTPException 422
      (Errors ["Row 3: Invalid date format: not-a-date";
               "Row 4: could not convert string to float: 'abc'"])
  /\ List.map Transaction.description
       (transactions
          (snd (demo_upload Demo.two_bad_rows (Demo.csv_file 100)
                  Demo.empty_world)))
     = ["Coffee"; "Salary"].
Proof. split; vm_compute; reflexivity. Qed.

Definition plain_text_11MiB : UploadFile :=
  {| content_type := Some "text/plain"; size := Some (11 * 1024 * 1024);
     content := [] |}.

(** C3 as stated fails: a file above 10 MiB whose content type lacks [csv]
    is refused as an unsupported media type, not as too large. *)
Lemma oversized_plain_text_is_415 :
  too_large plain_text_11MiB = true
  /\ demo_upload Demo.three_rows plain_text_11MiB Demo.empty_world
     = (HTTPException 415 (Message "Only CSV files are supported"),
        Demo.empty_world).
Proof. split; vm_compute; reflexivity. Qed.

(** C3 on three uploads: plain text, a CSV of 11 MiB, a table without the
    amount column. *)
Lemma structural_failures_examples :
  demo_upload Demo.three_rows plain_text_11MiB Demo.empty_world
  = (HTTPException 415 (Message "Only CSV files are supported"),
     Demo.empty_world)
  /\ demo_upload Demo.three_rows (Demo.csv_file (11 * 1024 * 1024))
       Demo.empty_world
     = (HTTPException 413 (Message "File size exceeds 10MB limit"),
        Demo.empty_world)
  /\ demo_upload Demo.no_amount (Demo.csv_file 100) Demo.empty_world
     = (HTTPException 422 (Errors ["Missing required columns: amount"]),
        Demo.empty_world).
Proof.
  split; [| split].
  - apply (proj1 (structural_failures_leave_store (fun _ => Ok Demo.three_rows)
                    Demo.iso_parse Demo.uuid4 Demo.utcnow plain_text_11MiB
                    Demo.empty_world)).
    vm_compute; reflexivity.
  - apply (proj1 (proj2 (structural_failures_leave_store
                           (fun _ => Ok Demo.three_rows) Demo.iso_parse
                           Demo.uuid4 Demo.utcnow
                           (Demo.csv_file (11 * 1024 * 1024))
                           Demo.empty_world)));
      vm_compute; reflexivity.
  - apply (proj2 (proj2 (structural_failures_leave_store
                           (fun _ => Ok Demo.no_amount) Demo.iso_parse
                           Demo.uuid4 Demo.utcnow (Demo.csv_file 100)
                           Demo.empty_world)) Demo.no_amount);
      try (vm_compute; reflexivity).
    vm_compute. discriminate.
Defined.

(** C4 with [Demo.iso_parse] as the date parser. *)
Lemma normalize_date_vectors_iso :
  normalize_date Demo.iso_parse "31/01/2024" = Ok "2024-01-31"
  /\ normalize_date Demo.iso_parse "2024-01-31" = Ok "2024-01-31"
  /\ normalize_date Demo.iso_parse "not-a-date"
     = Raise (ValueError "Invalid date format: not-a-date")
  /\ (forall s e, normalize_date Demo.iso_parse s = Raise e ->
      e = ValueError ("Invalid date format: " ++ s)).
Proof.
  apply (normalize_date_vectors Demo.iso_parse
           (Datetime.Build 2024 1 31 0 0 0 0));
    vm_compute; reflexivity.
Defined.



(** The store after [Demo.three_rows] is uploaded into the empty one. *)
Definition three_stored : World :=
  snd (demo_upload Demo.three_rows (Demo.csv_file 100) Demo.empty_world).

(** C8 on the first page of two of the three stored records, with no bound
    given and the clock at 2024-03-01. *)
Lemma get_transactions_first_page :
  exists (keep : Transaction -> bool) (sorted : list Transaction),
    (forall t, keep t = true
               <-> in_window (Demo.utcnow 0) None None (Transaction.date t))
    /\ Permutation sorted (List.filter keep (transactions three_stored))
    /\ Sorted date_desc sorted
    /\ Sorted date_desc
         (firstn (Z.to_nat 2) (skipn (Z.to_nat ((1 - 1) * 2)) sorted))
    /\ (length (firstn (Z.to_nat 2) (skipn (Z.to_nat ((1 - 1) * 2)) sorted))
        <= Z.to_nat 2)%nat
    /\ get_transactions (Demo.utcnow 0) None None 1 2 three_stored
       = Return
           {| data :=
                List.map to_response
                  (firstn (Z.to_nat 2) (skipn (Z.to_nat ((1 - 1) * 2)) sorted));
              page := 1;
              limit := 2;
              total :=
                Z.of_nat (length (List.filter keep (transactions three_stored))) |}.
Proof.
  apply (get_transactions_contract (Demo.utcnow 0)
           (Datetime.Build 2024 1 31 12 0 0 0) None None 1 2 three_stored).
  - lia.
  - lia.
  - vm_compute; reflexivity.
Defined.

(** The same request evaluated, and the second page, and an inclusive range
    that ends on 2024-01-31. *)
Example get_transactions_pages :
  (exists r, get_transactions (Demo.utcnow 0) None None 1 2 three_stored = Return r
     /\ List.map TransactionResponse.description (data r) = ["Salary"; "Rent"]
     /\ total r = 3)
  /\ (exists r, get_transactions (Demo.utcnow 0) None None 2 2 three_stored = Return r
        /\ List.map TransactionResponse.description (data r) = ["Coffee"]
        /\ total r = 3)
  /\ (exists r, get_transactions (Demo.utcnow 0) (Some "2024-01-01")
                  (Some "2024-01-31") 1 50 three_stored = Return r
        /\ List.map TransactionResponse.description (data r) = ["Coffee"]
        /\ total r = 1).
Proof.
  repeat split; eexists; (split; [vm_compute; reflexivity |]);
    split; vm_compute; reflexivity.
Qed.

(** C9 fails on an empty currency field: the second row of
    [Demo.blank_currency] is stored with the currency [nan], not [USD]. *)
Lemma blank_currency_persists_nan :
  List.map Transaction.currency
    (transactions
       (snd (demo_upload Demo.blank_currency (Demo.csv_file 100)
               Demo.empty_world)))
  = ["EUR"; "nan"]
  /\ fst (demo_upload Demo.blank_currency (Demo.csv_file 100) Demo.empty_world)
     = Return {| imported := 2; skipped := 0 |}.
Proof. split; vm_compute; reflexivity. Qed.

(** C10 on [99/99/2024], which is no calendar date. *)
Lemma normalize_date_99_99 :
  normalize_date Demo.iso_parse "99/99/2024" = Ok "2024-99-99".
Proof.
  apply (normalize_date_slash_unvalidated Demo.iso_parse "99/99/2024"
           "99" "99" "2024"); reflexivity.
Defined.

(** * Further properties of server.py and of backend_test.py *)

(** ** Sets of keys *)

Lemma difference_empty_l (K : gset string) : ∅ ∖ K = ∅.
Proof. apply set_eq. intros y. set_unfold. tauto. Qed.

Lemma union_known (k : string) (R K : gset string) :
  k ∈ K -> K ∪ ({[k]} ∪ R) = K ∪ R.
Proof.
  intros H. apply set_eq. intros y. set_unfold.
  destruct (decide (y = k)) as [-> | Hne]; tauto.
Qed.

Lemma difference_known (k : string) (R K : gset string) :
  k ∈ K -> ({[k]} ∪ R) ∖ K = R ∖ K.
Proof.
  intros H. apply set_eq. intros y. set_unfold.
  destruct (decide (y = k)) as [-> | Hne]; tauto.
Qed.

Lemma difference_new (k : string) (R K : gset string) :
  k ∉ K ->
  base.size (({[k]} ∪ R) ∖ K) = S (base.size (R ∖ (K ∪ {[k]}))).
Proof.
  intros H.
  replace (({[k]} ∪ R) ∖ K) with ({[k]} ∪ (R ∖ (K ∪ {[k]}))).
  - rewrite size_union; [now rewrite size_singleton |].
    intros y. set_unfold. intros -> [_ Hy]. apply Hy. now right.
  - apply set_eq. intros y. set_unfold.
    destruct (decide (y = k)) as [-> | Hne]; tauto.
Qed.

(** ** Stripping *)

Lemma lstrip_head (s : string) :
  Py.lstrip s = EmptyString
  \/ exists c r, Py.lstrip s = String c r /\ Py.isspace c = false.
Proof.
  induction s as [| c r IH]; simpl; [now left |].
  destruct (Py.isspace c) eqn:E; [exact IH |].
  right. exists c, r. auto.
Qed.

Lemma rstrip_head (c : ascii) (r : string) :
  Py.isspace c = false -> exists r', Py.rstrip (String c r) = String c r'.
Proof.
  intros E. simpl. rewrite E. destruct (Py.rstrip r); eauto.
Qed.

Lemma rstrip_rstrip (s : string) : Py.rstrip (Py.rstrip s) = Py.rstrip s.
Proof.
  induction s as [| c r IH]; [reflexivity |].
  simpl. destruct (Py.rstrip r) as [| a u] eqn:E.
  - destruct (Py.isspace c) eqn:S; simpl; [reflexivity | now rewrite S].
  - change (Py.rstrip (String c (String a u))) with
      (match Py.rstrip (String a u) with
       | EmptyString =>
           if Py.isspace c then EmptyString else String c EmptyString
       | r' => String c r'
       end).
    now rewrite IH.
Qed.

(** [s.strip().strip() == s.strip()] *)
Lemma strip_strip (s : string) : Py.strip (Py.strip s) = Py.strip s.
Proof.
  unfold Py.strip.
  destruct (lstrip_head s) as [-> | (c & r & -> & E)]; [reflexivity |].
  destruct (rstrip_head c r E) as (r' & Hr).
  rewrite Hr at 1. simpl Py.lstrip. rewrite E, <- Hr.
  apply rstrip_rstrip.
Qed.

(** ** What a query returns *)

Lemma get_transactions_return (now : Datetime.datetime)
    (from_date to_date : option string) (page limit : Z) (w : World)
    (r : TransactionsResponse) :
  get_transactions now from_date to_date page limit w = Return r ->
  exists query,
    build_query now from_date to_date = Ok query
    /\ 1 <= page /\ 1 <= limit <= 200
    /\ r = {| data :=
                List.map to_response
                  (find_sorted query ((page - 1) * limit) limit
                     (transactions w));
              page := page; limit := limit;
              total := count_documents query (transactions w) |}.
Proof.
  unfold get_transactions.
  destruct (Z.ltb_spec page 1), (Z.ltb_spec limit 1), (Z.ltb_spec 200 limit);
    simpl; try discriminate.
  destruct (build_query now from_date to_date) as [query | e]; [| discriminate].
  intros Hr. injection Hr as <-. exists query.
  repeat split; try lia.
Qed.

(** ** The upload handler and the store *)

Section Upload.

Variable read_csv : list Z -> py DataFrame.
Variable date_parser_parse : string -> option Datetime.datetime.
Variable uuid4 : nat -> string.
Variable utcnow : nat -> Datetime.datetime.

#[local] Abbreviation upload :=
  (upload_transactions_csv read_csv date_parser_parse uuid4 utcnow).
#[local] Abbreviation run_rows :=
  (process_rows date_parser_parse uuid4 utcnow).
#[local] Abbreviation run_row :=
  (process_row date_parser_parse uuid4 utcnow).
#[local] Abbreviation extract_row := (extract date_parser_parse).
#[local] Abbreviation key_of := (row_key date_parser_parse).

(** The loop state the handler starts from. *)
Definition start (w : World) : loop_state :=
  {| world := w; n_imported := 0; n_skipped := 0; row_errors := [] |}.

(** The message the loop records for an exception at [index]. *)
Definition row_message (index : Z) (e : exn) : string :=
  "Row " ++ Py.str_int (index + 2) ++ ": " ++ str_exn e.

(** The three ways one turn of the loop can go. *)
Lemma run_row_cases (st : loop_state) (index : Z) (row : Series) :
  (exists e,
      extract_row row = Raise e
      /\ run_row st index row
         = {| world := world st; n_imported := n_imported st;
              n_skipped := n_skipped st;
              row_errors := (row_errors st ++ [row_message index e])%list |})
  \/ (exists x,
         extract_row row = Ok x
         /\ In (x_hash_key x) (keys (transactions (world st)))
         /\ run_row st index row
            = {| world := world st; n_imported := n_imported st;
                 n_skipped := n_skipped st + 1;
                 row_errors := row_errors st |})
  \/ (exists x,
         extract_row row = Ok x
         /\ ~ In (x_hash_key x) (keys (transactions (world st)))
         /\ run_row st index row
            = {| world :=
                   {| transactions :=
                        (transactions (world st)
                           ++ [new_transaction uuid4 utcnow (world st) x])%list;
                      built := S (built (world st)) |};
                 n_imported := n_imported st + 1;
                 n_skipped := n_skipped st;
                 row_errors := row_errors st |}).
Proof.
  unfold process_row. destruct (extract_row row) as [x | e] eqn:E.
  - destruct (find_one (x_hash_key x) (transactions (world st))) eqn:F.
    + right. left. exists x. split; [reflexivity |].
      split; [now apply find_one_Some in F | reflexivity].
    + right. right. exists x. split; [reflexivity |].
      split; [now apply find_one_None | reflexivity].
  - left. exists e. split; reflexivity.
Qed.

(** The world an upload leaves is the world it got or the world its row
    loop left. *)
Lemma upload_world (file : UploadFile) (w : World) :
  snd (upload file w) = w
  \/ exists df, read_csv (content file) = Ok df
                /\ validate_csv_content df = []
                /\ snd (upload file w) = world (run_rows (start w) 0 (iterrows df)).
Proof.
  rewrite upload_unfold.
  destruct (declares_csv file); simpl; [| now left].
  destruct (too_large file); simpl; [now left |].
  destruct (read_csv (content file)) as [df | e]; [| now left].
  destruct (validate_csv_content df) eqn:V; [| now left].
  right. exists df. split; [reflexivity |]. split; [exact V |].
  cbv zeta. fold (start w).
  destruct (row_errors (run_rows (start w) 0 (iterrows df))); reflexivity.
Qed.

Lemma run_rows_appends (rows : list Series) :
  forall (st : loop_state) (index : Z),
    exists new,
      transactions (world (run_rows st index rows))
      = (transactions (world st) ++ new)%list
      /\ built (world (run_rows st index rows))
         = (built (world st) + length new)%nat
      /\ Z.of_nat (length new)
         = n_imported (run_rows st index rows) - n_imported st.
Proof.
  induction rows as [| row rest IH]; intros st index; simpl.
  - exists []. rewrite app_nil_r. simpl. repeat split; lia.
  - destruct (IH (run_row st index row) (index + 1)) as (new & Ht & Hb & Hn).
    destruct (run_row_cases st index row)
      as [(e & _ & Hr) | [(x & _ & _ & Hr) | (x & _ & _ & Hr)]];
      rewrite Hr in *; simpl in *.
    + exists new. repeat split; [exact Ht | exact Hb | lia].
    + exists new. repeat split; [exact Ht | exact Hb | lia].
    + eexists (_ :: new). rewrite Ht, Hb, <- app_assoc. simpl.
      repeat split; lia.
Qed.

(** X1. An upload only appends to the collection: the documents it found
    stay as they are and in place, whatever the file and whatever the
    answer. *)
Theorem upload_only_appends (file : UploadFile) (w : World) :
  exists new,
    transactions (snd (upload file w)) = (transactions w ++ new)%list.
Proof.
  destruct (upload_world file w) as [-> | (df & _ & _ & ->)].
  - exists []. now rewrite app_nil_r.
  - destruct (run_rows_appends (iterrows df) (start w) 0) as (new & H & _).
    exists new. exact H.
Qed.

Lemma run_rows_unique (rows : list Series) :
  forall (st : loop_state) (index : Z),
    NoDup (keys (transactions (world st))) ->
    NoDup (keys (transactions (world (run_rows st index rows)))).
Proof.
  induction rows as [| row rest IH]; intros st index Hnd; simpl.
  - exact Hnd.
  - apply IH.
    destruct (run_row_cases st index row)
      as [(e & _ & ->) | [(x & _ & _ & ->) | (x & _ & Hnew & ->)]]; simpl;
      try exact Hnd.
    unfold keys. rewrite List.map_app. simpl.
    apply NoDup_app. split; [exact Hnd |]. split.
    + intros k Hk Hin. apply list_elem_of_In in Hin.
      destruct Hin as [Heq | []]. apply Hnew. rewrite Heq.
      now apply list_elem_of_In.
    + apply NoDup_singleton.
Qed.

(** X2. If no two stored documents share a key before an upload, none do
    after it: a document is created once per key. *)
Theorem upload_keeps_keys_unique (file : UploadFile) (w : World) :
  NoDup (keys (transactions w)) ->
  NoDup (keys (transactions (snd (upload file w)))).
Proof.
  intros Hnd. destruct (upload_world file w) as [-> | (df & _ & _ & ->)].
  - exact Hnd.
  - now apply run_rows_unique.
Qed.

Lemma run_rows_settled (rows : list Series) :
  forall (st : loop_state) (index : Z),
    (forall row x, In row rows -> extract_row row = Ok x ->
                   In (x_hash_key x) (keys (transactions (world st)))) ->
    world (run_rows st index rows) = world st
    /\ n_imported (run_rows st index rows) = n_imported st
    /\ n_skipped (run_rows st index rows)
         + Z.of_nat (length (row_errors (run_rows st index rows)))
       = n_skipped st + Z.of_nat (length (row_errors st))
         + Z.of_nat (length rows).
Proof.
  induction rows as [| row rest IH]; intros st index Hin; simpl.
  - repeat split; lia.
  - destruct (run_row_cases st index row)
      as [(e & _ & Hr) | [(x & _ & _ & Hr) | (x & Hx & Hnew & _)]].
    + destruct (IH (run_row st index row) (index + 1)) as (Hw & Hi & Hs).
      { rewrite Hr. simpl. intros r x Hr' Hx.
        apply (Hin r x); [now right | exact Hx]. }
      rewrite Hw, Hi, Hs, Hr. simpl. rewrite length_app. simpl.
      repeat split; lia.
    + destruct (IH (run_row st index row) (index + 1)) as (Hw & Hi & Hs).
      { rewrite Hr. simpl. intros r x' Hr' Hx'.
        apply (Hin r x'); [now right | exact Hx']. }
      rewrite Hw, Hi, Hs, Hr. simpl. repeat split; lia.
    + exfalso. apply Hnew. apply (Hin row x); [now left | exact Hx].
Qed.

Lemma run_rows_errors_start (rows : list Series) (w : World) :
  row_errors (run_rows (start w) 0 rows) = expected_errors date_parser_parse rows.
Proof.
  change 0 with (Z.of_nat 0). unfold start.
  rewrite process_rows_errors. reflexivity.
Qed.

(** The upload of an accepted file with a valid table, by its loop. *)
Lemma upload_loop (file : UploadFile) (df : DataFrame) (w : World) :
  declares_csv file = true -> too_large file = false ->
  read_csv (content file) = Ok df -> validate_csv_content df = [] ->
  upload file w
  = (match expected_errors date_parser_parse (iterrows df) with
     | [] =>
         Return
           {| imported := n_imported (run_rows (start w) 0 (iterrows df));
              skipped := n_skipped (run_rows (start w) 0 (iterrows df)) |}
     | (_ :: _) as errs => HTTPException 422 (Errors errs)
     end, world (run_rows (start w) 0 (iterrows df))).
Proof.
  intros Hm Hs Hr Hv. rewrite upload_unfold, Hm, Hs, Hr, Hv. simpl.
  fold (start w). rewrite run_rows_errors_start.
  destruct (expected_errors date_parser_parse (iterrows df)); reflexivity.
Qed.

(** A file is refused before the loop, with an answer that does not depend
    on the world, or it is accepted and parsed into a valid table. *)
Lemma upload_refused_or_parsed (file : UploadFile) :
  (exists status d, forall w, upload file w = (HTTPException status d, w))
  \/ (exists df, declares_csv file = true /\ too_large file = false
                 /\ read_csv (content file) = Ok df
                 /\ validate_csv_content df = []).
Proof.
  destruct (declares_csv file) eqn:Hm.
  2:{ left. do 2 eexists. intros w. rewrite upload_unfold, Hm. reflexivity. }
  destruct (too_large file) eqn:Hs.
  { left. do 2 eexists. intros w. rewrite upload_unfold, Hm, Hs. reflexivity. }
  destruct (read_csv (content file)) as [df | e] eqn:Hr.
  2:{ left. do 2 eexists. intros w. rewrite upload_unfold, Hm, Hs, Hr.
      reflexivity. }
  destruct (validate_csv_content df) as [| v vs] eqn:Hv.
  2:{ left. do 2 eexists. intros w. rewrite upload_unfold, Hm, Hs, Hr, Hv.
      reflexivity. }
  right. exists df. auto.
Qed.

Lemma upload_again (file : UploadFile) (w : World) :
  let first := upload file w in
  let second := upload file (snd first) in
  snd second = snd first
  /\ (forall status d, fst first = HTTPException status d ->
                       fst second = HTTPException status d)
  /\ (forall r, fst first = Return r ->
                fst second
                = Return {| imported := 0; skipped := imported r + skipped r |}).
Proof.
  intros first second. subst first second.
  destruct (upload_refused_or_parsed file)
    as [(status & d & Hall) | (df & Hm & Hs & Hr & Hv)].
  { rewrite !Hall. simpl. repeat split; [auto | discriminate]. }
  rewrite (upload_loop file df w Hm Hs Hr Hv). cbn [fst snd].
  rewrite (upload_loop file df _ Hm Hs Hr Hv). cbn [fst snd].
  set (st1 := run_rows (start w) 0 (iterrows df)).
  destruct (run_rows_settled (iterrows df) (start (world st1)) 0)
    as (Hw & Hi & Hsk).
  { intros row x. apply process_rows_attempts. }
  pose proof (process_rows_count date_parser_parse uuid4 utcnow
                (iterrows df) (start w) 0) as Hc.
  cbv zeta in Hc. fold st1 in Hc.
  rewrite !run_rows_errors_start in Hsk.
  unfold st1 in Hc at 3. rewrite run_rows_errors_start in Hc.
  simpl in Hw, Hi, Hsk, Hc.
  split; [exact Hw |].
  destruct (expected_errors date_parser_parse (iterrows df)) as [| m ms].
  - split; [discriminate |]. intros r [= <-]. simpl in *.
    rewrite Hi. f_equal. f_equal. lia.
  - split; [auto | discriminate].
Qed.

(** X3. Uploading a file again right after its upload never changes the
    store. A failed upload fails again with the same answer; a successful
    one is answered with nothing imported and every row skipped. *)
Theorem upload_again_changes_nothing (file : UploadFile) (w : World) :
  let first := upload file w in
  let second := upload file (snd first) in
  snd second = snd first
  /\ (forall status d, fst first = HTTPException status d ->
                       fst second = HTTPException status d)
  /\ (forall r, fst first = Return r ->
                fst second
                = Return {| imported := 0; skipped := imported r + skipped r |}).
Proof.
  exact (upload_again file w).
Qed.

(** The keys of a list of documents, as a set. *)
Definition key_set (docs : list Transaction) : gset string :=
  list_to_set (keys docs).

(** The keys of the rows that parse, as a set. *)
Definition row_key_set (rows : list Series) : gset string :=
  list_to_set (omap key_of rows).

Lemma omap_cons_key (row : Series) (rest : list Series) :
  omap key_of (row :: rest)
  = match key_of row with
    | Some k => k :: omap key_of rest
    | None => omap key_of rest
    end.
Proof. reflexivity. Qed.

Lemma key_set_snoc (docs : list Transaction) (t : Transaction) :
  key_set (docs ++ [t]) = key_set docs ∪ {[Transaction.hash_key t]}.
Proof.
  unfold key_set, keys. rewrite List.map_app, list_to_set_app_L. simpl.
  now rewrite union_empty_r_L.
Qed.

Lemma key_set_elem (docs : list Transaction) (k : string) :
  k ∈ key_set docs <-> In k (keys docs).
Proof. unfold key_set. now rewrite elem_of_list_to_set, list_elem_of_In. Qed.

Lemma run_rows_key_set (rows : list Series) :
  forall (st : loop_state) (index : Z),
    key_set (transactions (world (run_rows st index rows)))
    = key_set (transactions (world st)) ∪ row_key_set rows
    /\ n_imported (run_rows st index rows) - n_imported st
       = Z.of_nat
           (base.size (row_key_set rows ∖ key_set (transactions (world st)))).
Proof.
  induction rows as [| row rest IH]; intros st index.
  - unfold row_key_set. simpl. rewrite difference_empty_l.
    split; [now rewrite (right_id_L ∅ (∪)) | rewrite size_empty; lia].
  - cbn [process_rows].
    destruct (IH (run_row st index row) (index + 1)) as (Hk & Hn).
    rewrite Hk. clear Hk IH.
    assert (row_key_set (row :: rest)
            = match key_of row with
              | Some k => {[k]} ∪ row_key_set rest
              | None => row_key_set rest
              end) as ->.
    { unfold row_key_set. rewrite omap_cons_key.
      destruct (key_of row); [apply list_to_set_cons | reflexivity]. }
    destruct (run_row_cases st index row)
      as [(e & He & Hr) | [(x & Hx & Hold & Hr) | (x & Hx & Hnew & Hr)]];
      rewrite Hr in Hn |- *; cbn [world transactions n_imported] in Hn |- *;
      [ assert (key_of row = None) as ->
          by (unfold row_key; now rewrite He)
      | assert (key_of row = Some (x_hash_key x)) as ->
          by (unfold row_key; now rewrite Hx) .. ].
    + split; [reflexivity | lia].
    + apply key_set_elem in Hold.
      rewrite (union_known _ _ _ Hold), (difference_known _ _ _ Hold).
      split; [reflexivity | lia].
    + rewrite <- key_set_elem in Hnew.
      rewrite key_set_snoc in Hn |- *.
      change (Transaction.hash_key (new_transaction uuid4 utcnow (world st) x))
        with (x_hash_key x) in Hn |- *.
      rewrite (difference_new _ _ _ Hnew).
      split; [now rewrite (assoc_L (∪)) | lia].
Qed.

Lemma run_rows_skipped_grows (rows : list Series) :
  forall (st : loop_state) (index : Z),
    n_skipped st <= n_skipped (run_rows st index rows).
Proof.
  induction rows as [| row rest IH]; intros st index; simpl.
  - lia.
  - etransitivity; [| apply IH].
    destruct (run_row_cases st index row)
      as [(e & _ & ->) | [(x & _ & _ & ->) | (x & _ & _ & ->)]]; simpl; lia.
Qed.

(** X4. What a successful upload reports: imported and skipped add up to
    the rows of the table; the store grows by the imported rows; and the
    imported rows are as many as the distinct keys of the table that the
    store did not hold, so a key that occurs twice in the file is imported
    once. *)
Theorem upload_counts (file : UploadFile) (df : DataFrame) (w : World)
    (r : UploadResponse) :
  read_csv (content file) = Ok df ->
  fst (upload file w) = Return r ->
  imported r + skipped r = Z.of_nat (length (iterrows df))
  /\ 0 <= skipped r
  /\ Z.of_nat (length (transactions (snd (upload file w))))
     = Z.of_nat (length (transactions w)) + imported r
  /\ imported r
     = Z.of_nat
         (base.size (row_key_set (iterrows df) ∖ key_set (transactions w)))
  /\ key_set (transactions (snd (upload file w)))
     = key_set (transactions w) ∪ row_key_set (iterrows df).
Proof.
  intros Hr. rewrite upload_unfold.
  destruct (declares_csv file); simpl; [| discriminate].
  destruct (too_large file); simpl; [discriminate |].
  rewrite Hr. destruct (validate_csv_content df); [| discriminate].
  cbv zeta. fold (start w).
  pose proof (process_rows_count date_parser_parse uuid4 utcnow
                (iterrows df) (start w) 0) as Hc.
  destruct (run_rows_appends (iterrows df) (start w) 0) as (new & Ht & _ & Hn).
  destruct (run_rows_key_set (iterrows df) (start w) 0) as (Hk & Hi).
  pose proof (run_rows_skipped_grows (iterrows df) (start w) 0) as Hs.
  cbv zeta in Hc. revert Hc Ht Hn Hk Hi Hs.
  generalize (run_rows (start w) 0 (iterrows df)). intros st.
  simpl. intros Hc Ht Hn Hk Hi Hs.
  destruct (row_errors st) eqn:He; [| discriminate].
  intros [= <-]. simpl in *.
  repeat split; try lia.
  - rewrite Ht, length_app. lia.
  - exact Hk.
Qed.

(** ** What a row becomes *)

(** The currency the loop takes from a row: [USD] without the column or
    with a blank text in the cell, the stripped text of the cell otherwise. *)
Definition currency_of (row : Series) : string :=
  match Py.strip (str_cell (default (CStr "USD") (row !! "currency"))) with
  | EmptyString => "USD"
  | s => s
  end.

(** What a row that parses was made of. *)
Lemma extract_inv (row : Series) (x : extracted) :
  extract_row row = Ok x ->
  exists c_date c_description c_amount,
    row !! "date" = Some c_date
    /\ row !! "description" = Some c_description
    /\ row !! "amount" = Some c_amount
    /\ normalize_date date_parser_parse (Py.strip (str_cell c_date))
       = Ok (x_date x)
    /\ x_description x = Py.strip (str_cell c_description)
    /\ float_cell c_amount = Ok (x_amount x)
    /\ x_currency x = currency_of row
    /\ (if notna (row !! "balance")
        then exists c b, row !! "balance" = Some c /\ float_cell c = Ok b
                         /\ x_balance x = Some b
        else x_balance x = None)
    /\ x_hash_key x
       = generate_hash (x_date x) (x_description x) (x_amount x)
           (x_currency x).
Proof.
  unfold extract, mbind, py_bind, getitem. intros H.
  destruct (row !! "date") as [c_date |]; [| discriminate].
  destruct (row !! "description") as [c_description |]; [| discriminate].
  destruct (row !! "amount") as [c_amount |]; [| discriminate].
  destruct (float_cell c_amount) as [amount |] eqn:Ha; [| discriminate].
  exists c_date, c_description, c_amount.
  destruct (notna (row !! "balance")) eqn:Hb.
  - destruct (row !! "balance") as [c |]; [| discriminate].
    destruct (float_cell c) as [b |] eqn:Hc; [| discriminate].
    destruct (normalize_date _ _) as [nd |] eqn:Hd; [| discriminate].
    injection H as <-. cbn [x_date x_description x_amount x_currency
                              x_balance x_hash_key].
    do 8 (split; [first [reflexivity | eauto] |]). reflexivity.
  - destruct (normalize_date _ _) as [nd |] eqn:Hd; [| discriminate].
    injection H as <-. cbn [x_date x_description x_amount x_currency
                              x_balance x_hash_key].
    do 8 (split; [first [reflexivity | eauto] |]). reflexivity.
Qed.

(** What the loop writes: the key is the digest of the document's own four
    fields, description and currency are stripped, the currency is not
    empty, and the date is an output of [normalize_date]. *)
Definition well_formed (t : Transaction) : Prop :=
  Transaction.hash_key t
  = generate_hash (Transaction.date t) (Transaction.description t)
      (Transaction.amount t) (Transaction.currency t)
  /\ Py.strip (Transaction.description t) = Transaction.description t
  /\ Py.strip (Transaction.currency t) = Transaction.currency t
  /\ Transaction.currency t <> EmptyString
  /\ exists date_str,
       normalize_date date_parser_parse date_str = Ok (Transaction.date t).

Lemma currency_of_stripped (row : Series) :
  Py.strip (currency_of row) = currency_of row
  /\ currency_of row <> EmptyString.
Proof.
  unfold currency_of.
  destruct (Py.strip (str_cell (default (CStr "USD") (row !! "currency"))))
    as [| a u] eqn:E.
  - split; [reflexivity | discriminate].
  - split; [| discriminate]. rewrite <- E. apply strip_strip.
Qed.

Lemma new_transaction_well_formed (row : Series) (x : extracted) (w : World) :
  extract_row row = Ok x -> well_formed (new_transaction uuid4 utcnow w x).
Proof.
  intros H. apply extract_inv in H.
  destruct H as (cd & cs & ca & _ & _ & _ & Hd & Hs & _ & Hc & _ & Hk).
  unfold well_formed, new_transaction. simpl.
  split; [exact Hk |].
  split; [rewrite Hs; apply strip_strip |].
  rewrite Hc. split; [apply currency_of_stripped |].
  split; [apply currency_of_stripped |].
  eexists. exact Hd.
Qed.

Lemma run_rows_well_formed (rows : list Series) :
  forall (st : loop_state) (index : Z) (t : Transaction),
    In t (transactions (world (run_rows st index rows))) ->
    In t (transactions (world st)) \/ well_formed t.
Proof.
  induction rows as [| row rest IH]; intros st index t Hin; simpl in Hin.
  - now left.
  - apply IH in Hin. destruct Hin as [Hin | Hwf]; [| now right].
    destruct (run_row_cases st index row)
      as [(e & _ & Hr) | [(x & _ & _ & Hr) | (x & Hx & _ & Hr)]];
      rewrite Hr in Hin; simpl in Hin.
    + now left.
    + now left.
    + apply in_app_or in Hin. destruct Hin as [Hin | [<- | []]].
      * now left.
      * right. eapply new_transaction_well_formed, Hx.
Qed.

(** X5. Every document an upload adds to the collection has as key the
    digest of its own date, description, amount and currency, a
    description and a currency without surrounding whitespace, a currency
    that is not empty, and a date that [normalize_date] returned. *)
Theorem upload_writes_well_formed (file : UploadFile) (w : World)
    (t : Transaction) :
  In t (transactions (snd (upload file w))) ->
  In t (transactions w) \/ well_formed t.
Proof.
  destruct (upload_world file w) as [-> | (df & _ & _ & ->)].
  - now left.
  - apply (run_rows_well_formed (iterrows df) (start w) 0).
Qed.




(** X8. An empty amount is no error: pandas hands the cell over as NaN,
    [float] takes it, and the row is extracted with the amount NaN and the
    key of the text in which the amount reads [nan]. *)
Theorem extract_empty_amount (row : Series) (c_date c_description : cell)
    (normalized_date : string) :
  row !! "date" = Some c_date ->
  row !! "description" = Some c_description ->
  row !! "amount" = Some (CFloat PyFloat.nan) ->
  notna (row !! "balance") = false ->
  normalize_date date_parser_parse (Py.strip (str_cell c_date))
  = Ok normalized_date ->
  extract_row row
  = Ok {| x_date := normalized_date;
          x_description := Py.strip (str_cell c_description);
          x_amount := PyFloat.nan;
          x_currency := currency_of row;
          x_balance := None;
          x_hash_key :=
            Hashlib.md5_hexdigest
              (Py.encode
                 (normalized_date ++ "|" ++ Py.strip (str_cell c_description)
                    ++ "|nan|" ++ currency_of row)) |}.
Proof.
  intros Hd Hs Ha Hb Hn.
  unfold extract, mbind, py_bind, getitem.
  rewrite Hd, Hs, Ha, Hb. cbn [float_cell]. rewrite Hn. reflexivity.
Qed.

(** ** When the store changes *)





(** ** An upload seen by a query *)

(** X10. The same query asked before and after an upload: [total] never
    goes down, and it goes up by no more than the number of documents the
    upload added. *)
Theorem upload_then_query_total (now : Datetime.datetime)
    (from_date to_date : option string) (page limit page' limit' : Z)
    (file : UploadFile) (w : World) (before after : TransactionsResponse) :
  get_transactions now from_date to_date page limit w = Return before ->
  get_transactions now from_date to_date page' limit' (snd (upload file w))
  = Return after ->
  total before <= total after
  <= total before
     + (Z.of_nat (length (transactions (snd (upload file w))))
        - Z.of_nat (length (transactions w))).
Proof.
  intros Hb Ha.
  apply get_transactions_return in Hb. destruct Hb as (q & Hq & _ & _ & ->).
  apply get_transactions_return in Ha. destruct Ha as (q' & Hq' & _ & _ & ->).
  cbn [total].
  rewrite Hq in Hq'. injection Hq' as <-.
  assert (exists new,
            transactions (snd (upload file w)) = (transactions w ++ new)%list)
    as (new & ->).
  { destruct (upload_world file w) as [-> | (df & _ & _ & ->)].
    - exists []. now rewrite app_nil_r.
    - destruct (run_rows_appends (iterrows df) (start w) 0) as (new & H & _).
      exists new. exact H. }
  unfold count_documents. rewrite List.filter_app, !length_app.
  pose proof (List.filter_length_le (matches q) new). lia.
Qed.

End Upload.

(** ** The shape of a key *)

(** The characters of [hexdigest()]: digits and [a] to [f]. *)
Definition is_hex (c : ascii) : bool :=
  let n := Py.ord c in
  ((48 <=? n) && (n <=? 57)) || ((97 <=? n) && (n <=? 102)).

Definition is_byte (b : Z) : Prop := 0 <= b < 256.

Lemma le_bytes_bytes (n : nat) :
  forall x, length (Hashlib.le_bytes n x) = n
            /\ Forall is_byte (Hashlib.le_bytes n x).
Proof.
  induction n as [| k IH]; intros x; simpl.
  - split; constructor.
  - destruct (IH (x / 256)) as [Hl Hf]. split; [now rewrite Hl |].
    constructor; [| exact Hf]. unfold is_byte.
    apply Z.mod_pos_bound. lia.
Qed.

Lemma md5_digest_bytes (msg : list Z) :
  length (Hashlib.md5_digest msg) = 16%nat
  /\ Forall is_byte (Hashlib.md5_digest msg).
Proof.
  unfold Hashlib.md5_digest.
  destruct (fold_left Hashlib.md5_block _ Hashlib.md5_init) as [a b c d].
  destruct (le_bytes_bytes 4 a) as [La Fa], (le_bytes_bytes 4 b) as [Lb Fb],
    (le_bytes_bytes 4 c) as [Lc Fc], (le_bytes_bytes 4 d) as [Ld Fd].
  split.
  - rewrite !length_app, La, Lb, Lc, Ld. reflexivity.
  - repeat (apply Forall_app; split); assumption.
Qed.

Lemma hex2_hex (b : Z) :
  is_byte b ->
  exists h l, Py.hex2 b = String h (String l EmptyString)
              /\ is_hex h = true /\ is_hex l = true.
Proof.
  intros Hb. unfold Py.hex2. do 2 eexists. split; [reflexivity |].
  assert (forallb (fun n => is_hex (Py.hex_digit (Z.of_nat n))) (seq 0 16)
          = true) as H by (vm_compute; reflexivity).
  rewrite forallb_forall in H. unfold is_byte in Hb.
  split.
  - rewrite <- (Z2Nat.id (b / 16)) by (apply Z.div_pos; lia).
    apply H, in_seq.
    assert (b / 16 < 16) by (apply Z.div_lt_upper_bound; lia).
    assert (0 <= b / 16) by (apply Z.div_pos; lia). lia.
  - pose proof (Z.mod_pos_bound b 16 ltac:(lia)).
    rewrite <- (Z2Nat.id (b mod 16)) by lia.
    apply H, in_seq. lia.
Qed.

Lemma hex_of_bytes_hex (bs : list Z) :
  Forall is_byte bs ->
  String.length (Hashlib.hex_of_bytes bs) = (2 * length bs)%nat
  /\ forallb is_hex (list_ascii_of_string (Hashlib.hex_of_bytes bs)) = true.
Proof.
  induction 1 as [| b r Hb Hr [IHl IHf]]; [split; reflexivity |].
  cbn [Hashlib.hex_of_bytes length].
  destruct (hex2_hex b Hb) as (h & l & E & Hh & Hl). rewrite E.
  change (String h (String l EmptyString) ++ Hashlib.hex_of_bytes r)
    with (String h (String l (Hashlib.hex_of_bytes r))).
  simpl. rewrite IHl, Hh, Hl, IHf. split; [lia | reflexivity].
Qed.

(** X11. Whatever the four fields are, the key is a text of 32 characters,
    each a digit or one of the letters [a] to [f]. *)
Theorem generate_hash_is_hex (date description : string)
    (amount : PyFloat.float) (currency : string) :
  String.length (generate_hash date description amount currency) = 32%nat
  /\ forallb is_hex
       (list_ascii_of_string
          (generate_hash date description amount currency)) = true.
Proof.
  unfold generate_hash, Hashlib.md5_hexdigest.
  destruct (md5_digest_bytes
              (Py.encode
                 (date ++ "|" ++ description ++ "|" ++ PyFloat.repr amount
                    ++ "|" ++ currency))) as [Hl Hf].
  destruct (hex_of_bytes_hex _ Hf) as [Hl' Hf'].
  rewrite Hl', Hl. split; [reflexivity | exact Hf'].
Qed.

(** ** Dates that are left to the parser *)

(** X12. A date that does not split at [/] into three parts with a third
    part of four characters is left to the date parser, with or without
    [-] in it and with or without [/]: the result is the parsed day
    written as [%Y-%m-%d], or the error that holds the raw input. *)
Theorem normalize_date_asks_parser
    (date_parser_parse : string -> option Datetime.datetime) (s : string) :
  (forall day month year,
     Py.split "/" s = [day; month; year] -> String.length year <> 4%nat) ->
  normalize_date date_parser_parse s
  = match date_parser_parse s with
    | Some date_obj => Ok (Datetime.strftime_Ymd date_obj)
    | None => Raise (ValueError ("Invalid date format: " ++ s))
    end.
Proof.
  intros H. unfold normalize_date, normalize_date_try, parse_and_format.
  destruct (Py.contains "/" s).
  - destruct (Py.split "/" s) as [| day [| month [| year [| x r]]]] eqn:E;
      try (destruct (date_parser_parse s); reflexivity).
    specialize (H day month year eq_refl).
    apply Nat.eqb_neq in H. rewrite H.
    destruct (date_parser_parse s); reflexivity.
  - destruct (Py.contains "-" s); destruct (date_parser_parse s); reflexivity.
Qed.

(** ** Pages of a query *)

Lemma sort_date_desc_length (docs : list Transaction) :
  length (sort_date_desc docs) = length docs.
Proof.
  apply Permutation_length, sort_date_desc_perm.
Qed.

(** X13. The number of records on a page: what is left of [total] after
    the [(page - 1) * limit] records of the pages before, and no more than
    [limit]. A page past the end is empty, and the answer is still 200. *)
Theorem get_transactions_page_length (now : Datetime.datetime)
    (from_date to_date : option string) (page limit : Z) (w : World)
    (r : TransactionsResponse) :
  get_transactions now from_date to_date page limit w = Return r ->
  Z.of_nat (length (data r))
  = Z.min limit (Z.max 0 (total r - (page - 1) * limit)).
Proof.
  intros H. apply get_transactions_return in H.
  destruct H as (q & _ & Hp & Hl & ->). simpl.
  unfold find_sorted, count_documents.
  rewrite length_map, length_take, length_drop, sort_date_desc_length.
  assert (0 <= (page - 1) * limit) as Hs by nia.
  revert Hs. generalize ((page - 1) * limit). intros skip Hs. lia.
Qed.

(** The records of page [i], nothing if the request fails. *)
Definition page_data (now : Datetime.datetime)
    (from_date to_date : option string) (limit : Z) (w : World) (i : nat)
  : list TransactionResponse :=
  match get_transactions now from_date to_date (Z.of_nat i) limit w with
  | Return r => data r
  | HTTPException _ _ => []
  end.

Lemma page_data_stretch (now : Datetime.datetime)
    (from_date to_date : option string) (limit : Z) (w : World)
    (query : date_query) (i : nat) :
  1 <= limit <= 200 ->
  build_query now from_date to_date = Ok query ->
  page_data now from_date to_date limit w (S i)
  = List.map to_response
      (take (Z.to_nat limit)
         (drop (i * Z.to_nat limit)
            (sort_date_desc (List.filter (matches query) (transactions w))))).
Proof.
  intros Hl Hq. unfold page_data, get_transactions. rewrite Hq.
  destruct (Z.ltb_spec (Z.of_nat (S i)) 1), (Z.ltb_spec limit 1),
    (Z.ltb_spec 200 limit); try lia.
  simpl orb. cbv iota. cbn [data]. unfold find_sorted.
  replace (Z.to_nat ((Z.of_nat (S i) - 1) * limit))
    with (i * Z.to_nat limit)%nat by nia.
  reflexivity.
Qed.

Lemma pages_concat (now : Datetime.datetime)
    (from_date to_date : option string) (limit : Z) (w : World)
    (query : date_query) (k : nat) :
  1 <= limit <= 200 ->
  build_query now from_date to_date = Ok query ->
  flat_map (page_data now from_date to_date limit w) (seq 1 k)
  = List.map to_response
      (take (k * Z.to_nat limit)
         (sort_date_desc (List.filter (matches query) (transactions w)))).
Proof.
  intros Hl Hq. induction k as [| k IH].
  - reflexivity.
  - rewrite seq_S, flat_map_app, IH. simpl flat_map. rewrite app_nil_r.
    rewrite (page_data_stretch now from_date to_date limit w query k Hl Hq).
    rewrite <- map_app. f_equal.
    replace (S k * Z.to_nat limit)%nat
      with (k * Z.to_nat limit + Z.to_nat limit)%nat by lia.
    apply take_take_drop.
Qed.

(** X14. Over a store that does not change, and with the sort as
    [sort_date_desc] has it (records of one date in the order of their
    insertion, at every request), the pages 1 to [k] of a query put end to
    end are the first [k * limit] matching records in the order of the
    sort: no record comes twice and none is left out between two pages.
    Once [k * limit] reaches [total] they hold every matching record, each
    once. *)
Theorem get_transactions_pages_cover (now : Datetime.datetime)
    (from_date to_date : option string) (limit : Z) (w : World)
    (query : date_query) (k : nat) :
  1 <= limit <= 200 ->
  build_query now from_date to_date = Ok query ->
  flat_map (page_data now from_date to_date limit w) (seq 1 k)
  = List.map to_response
      (take (k * Z.to_nat limit)
         (sort_date_desc (List.filter (matches query) (transactions w))))
  /\ (count_documents query (transactions w) <= Z.of_nat k * limit ->
      Permutation
        (flat_map (page_data now from_date to_date limit w) (seq 1 k))
        (List.map to_response
           (List.filter (matches query) (transactions w)))).
Proof.
  intros Hl Hq. split; [now apply pages_concat |].
  intros Hk. rewrite (pages_concat now from_date to_date limit w query k Hl Hq).
  apply Permutation_map. rewrite take_ge.
  - apply sort_date_desc_perm.
  - rewrite sort_date_desc_length. unfold count_documents in Hk. nia.
Qed.

(** ** Bounds in the wrong order *)

Lemma ascii_compare_trans (x y z : ascii) :
  Ascii.compare x y <> Gt -> Ascii.compare y z <> Gt ->
  Ascii.compare x z <> Gt
  /\ (Ascii.compare x z = Eq ->
      Ascii.compare x y = Eq /\ Ascii.compare y z = Eq).
Proof.
  unfold Ascii.compare.
  rewrite !N.compare_gt_iff, !N.compare_eq_iff. lia.
Qed.

Lemma string_compare_trans (a : string) :
  forall b c, String.compare a b <> Gt -> String.compare b c <> Gt ->
              String.compare a c <> Gt.
Proof.
  induction a as [| x a IH]; intros [| y b] [| z c]; simpl; try congruence.
  intros Hab Hbc.
  assert (Ascii.compare x y <> Gt) as Hxy
    by (destruct (Ascii.compare x y); congruence).
  assert (Ascii.compare y z <> Gt) as Hyz
    by (destruct (Ascii.compare y z); congruence).
  destruct (ascii_compare_trans x y z Hxy Hyz) as [Hxz Heq].
  destruct (Ascii.compare x z) eqn:E; try congruence.
  destruct (Heq eq_refl) as [E1 E2]. rewrite E1 in Hab. rewrite E2 in Hbc.
  now apply (IH b c).
Qed.

Lemma leb_trans (a b c : string) :
  String.leb a b = true -> String.leb b c = true -> String.leb a c = true.
Proof.
  unfold String.leb. intros Hab Hbc.
  pose proof (string_compare_trans a b c) as H.
  destruct (String.compare a b), (String.compare b c), (String.compare a c);
    try reflexivity; try discriminate; exfalso; apply H; congruence.
Qed.

(** X15. A range whose start is after its end is not refused: the request
    is answered 200 with no record and a [total] of 0. *)
Theorem get_transactions_inverted_range (now : Datetime.datetime)
    (from_date to_date : string) (page limit : Z) (w : World) :
  1 <= page -> 1 <= limit <= 200 ->
  from_date <> EmptyString -> to_date <> EmptyString ->
  String.leb from_date to_date = false ->
  get_transactions now (Some from_date) (Some to_date) page limit w
  = Return {| data := []; page := page; limit := limit; total := 0 |}.
Proof.
  intros Hp Hl Hf Ht Hlt.
  assert (List.filter
            (matches {| gte := Some from_date; lte := Some to_date |})
            (transactions w) = []) as Hnone.
  { induction (transactions w) as [| t r IH]; [reflexivity |]. simpl.
    rewrite IH. unfold matches at 1. simpl.
    destruct (String.leb from_date (Transaction.date t)) eqn:E1;
      [| reflexivity].
    destruct (String.leb (Transaction.date t) to_date) eqn:E2;
      [| reflexivity].
    rewrite (leb_trans _ _ _ E1 E2) in Hlt. discriminate. }
  unfold get_transactions, build_query, bound, falsy.
  apply String.eqb_neq in Hf. apply String.eqb_neq in Ht. rewrite Hf, Ht.
  destruct (Z.ltb_spec page 1), (Z.ltb_spec limit 1), (Z.ltb_spec 200 limit);
    try lia.
  simpl. unfold find_sorted, count_documents. rewrite Hnone. simpl.
  now rewrite drop_nil, take_nil.
Qed.

(** ** The key of the API and the upload route *)

(** [verify_api_key], the dependency of the upload route. *)
Definition verify_api_key (x_api_key : string) : response string :=
  if negb (String.eqb x_api_key "dev-key")
  then HTTPException 401 (Message "Invalid API key")
  else Return x_api_key.

Module HealthResponse.
Record t := Build { status : string }.
End HealthResponse.
Abbreviation HealthResponse := HealthResponse.t.

(** [health_check] *)
Definition health_check : HealthResponse := HealthResponse.Build "ok".

(** What a route answers a request with: the answer of the dependency or
    of the handler, the framework's 422 for a request that lacks a required
    parameter, or the 429 of the rate limiter. *)
Inductive routed (A : Type) : Type :=
| Handled (r : response A)
| RequestValidationError
| RateLimitExceeded.
Arguments Handled {A} r.
Arguments RequestValidationError {A}.
Arguments RateLimitExceeded {A}.

(** [response.status_code], as the client reads it. *)
Definition status_of {A : Type} (r : routed A) : Z :=
  match r with
  | Handled (Return _) => 200
  | Handled (HTTPException status_code _) => status_code
  | RequestValidationError => 422
  | RateLimitExceeded => 429
  end.

Section Routes.

Variable read_csv : list Z -> py DataFrame.
Variable date_parser_parse : string -> option Datetime.datetime.
Variable uuid4 : nat -> string.
Variable utcnow : nat -> Datetime.datetime.

#[local] Abbreviation upload :=
  (upload_transactions_csv read_csv date_parser_parse uuid4 utcnow).

(** The route [POST /api/uploads/transactions-csv] on a request that
    carries a file. [x_api_key] is the header of that name, [None] when the
    request has none: [Header(...)] makes it a required parameter, and the
    framework answers its absence itself. The dependency [verify_api_key]
    is resolved before the endpoint is called; the endpoint is the handler
    wrapped by [limiter.limit], and [over_limit] tells whether the limiter
    finds the client beyond 60 requests in the minute. *)
Definition upload_route (over_limit : bool) (x_api_key : option string)
    (file : UploadFile) (w : World) : routed UploadResponse * World :=
  match x_api_key with
  | None => (RequestValidationError, w)
  | Some key =>
      match verify_api_key key with
      | HTTPException status_code d => (Handled (HTTPException status_code d), w)
      | Return _ =>
          if over_limit then (RateLimitExceeded, w)
          else let '(r, w') := upload file w in (Handled r, w')
      end
  end.


Lemma upload_route_handler (file : UploadFile) (w : World) :
  upload_route false (Some "dev-key") file w
  = (Handled (fst (upload file w)), snd (upload file w)).
Proof.
  unfold upload_route. simpl. now destruct (upload file w).
Qed.


End Routes.

(** * backend_test.py *)

Module BannkMintAPITester.

(** The tester, without the two addresses [__init__] also sets. *)
Record t := Build { tests_run : Z; tests_passed : Z; api_key : string }.

(** [__init__] *)
Definition init : t := Build 0 0 "dev-key".

(** [log_test], without what it prints. *)
Definition log_test (self : t) (success : bool) : t * bool :=
  (Build (tests_run self + 1)
     (if success then tests_passed self + 1 else tests_passed self)
     (api_key self),
   success).

(** What the requests of a run were answered with, in the order of
    [run_all_tests]; [None] where the [try] of the test raised instead:
    the file [/app/demo.csv] could not be opened, the request failed, or
    the body was not the JSON the test reads. *)
Record exchanges := {
  health : option (routed HealthResponse);
  upload_valid : option (routed UploadResponse);
  upload_duplicate : option (routed UploadResponse);
  upload_no_api_key : option (routed UploadResponse);
  upload_invalid_api_key : option (routed UploadResponse);
  upload_non_csv_file : option (routed UploadResponse);
  transactions_default : option (routed TransactionsResponse);
  transactions_date_filter : option (routed TransactionsResponse);
  transactions_pagination : option (routed TransactionsResponse)
}.

(** [response.status_code == expected] *)
Definition status_is {A : Type} (expected : Z) (answer : option (routed A))
  : bool :=
  match answer with
  | Some r => status_of r =? expected
  | None => false
  end.

(** The [success] of the two tests of a demo upload. *)
Definition upload_counts_are (expected_imported expected_skipped : Z)
    (answer : option (routed UploadResponse)) : bool :=
  match answer with
  | Some (Handled (Return d)) =>
      (imported d =? expected_imported) && (skipped d =? expected_skipped)
  | _ => false
  end.

Definition test_health_endpoint (self : t)
    (answer : option (routed HealthResponse)) : t * bool :=
  log_test self
    match answer with
    | Some (Handled (Return d)) => String.eqb (HealthResponse.status d) "ok"
    | _ => false
    end.

Definition test_csv_upload_valid (self : t)
    (answer : option (routed UploadResponse)) : t * bool :=
  log_test self (upload_counts_are 8 0 answer).

Definition test_csv_upload_duplicate (self : t)
    (answer : option (routed UploadResponse)) : t * bool :=
  log_test self (upload_counts_are 0 8 answer).

Definition test_csv_upload_no_api_key (self : t)
    (answer : option (routed UploadResponse)) : t * bool :=
  log_test self (status_is 401 answer).

Definition test_csv_upload_invalid_api_key (self : t)
    (answer : option (routed UploadResponse)) : t * bool :=
  log_test self (status_is 401 answer).

Definition test_csv_upload_non_csv_file (self : t)
    (answer : option (routed UploadResponse)) : t * bool :=
  log_test self (status_is 415 answer).

Definition test_get_transactions_default (self : t)
    (answer : option (routed TransactionsResponse)) : t * bool :=
  log_test self
    match answer with
    | Some (Handled (Return d)) => 8 <=? total d
    | _ => false
    end.

Definition test_get_transactions_with_date_filter (self : t)
    (answer : option (routed TransactionsResponse)) : t * bool :=
  log_test self
    match answer with
    | Some (Handled (Return d)) => 8 <=? total d
    | _ => false
    end.

Definition test_get_transactions_with_pagination (self : t)
    (answer : option (routed TransactionsResponse)) : t * bool :=
  log_test self
    match answer with
    | Some (Handled (Return d)) =>
        (page d =? 1) && (limit d =? 5)
        && (Z.of_nat (length (data d)) <=? 5)
    | _ => false
    end.

Definition run_all_tests (self : t) (net : exchanges) : t * bool :=
  let '(self, healthy) := test_health_endpoint self (health net) in
  if negb healthy then (self, false)
  else
    let self := fst (test_csv_upload_valid self (upload_valid net)) in
    let self := fst (test_csv_upload_duplicate self (upload_duplicate net)) in
    let self := fst (test_csv_upload_no_api_key self (upload_no_api_key net)) in
    let self :=
      fst (test_csv_upload_invalid_api_key self (upload_invalid_api_key net)) in
    let self :=
      fst (test_csv_upload_non_csv_file self (upload_non_csv_file net)) in
    let self :=
      fst (test_get_transactions_default self (transactions_default net)) in
    let self :=
      fst (test_get_transactions_with_date_filter self
             (transactions_date_filter net)) in
    let self :=
      fst (test_get_transactions_with_pagination self
             (transactions_pagination net)) in
    (self, tests_passed self =? tests_run self).

(** [main], which makes its own tester. *)
Definition main (net : exchanges) : Z :=
  if snd (run_all_tests init net) then 0 else 1.

(** The [success] of each test of a run, in the order of the run. *)
Definition successes (net : exchanges) : list bool :=
  [snd (test_health_endpoint init (health net));
   snd (test_csv_upload_valid init (upload_valid net));
   snd (test_csv_upload_duplicate init (upload_duplicate net));
   snd (test_csv_upload_no_api_key init (upload_no_api_key net));
   snd (test_csv_upload_invalid_api_key init (upload_invalid_api_key net));
   snd (test_csv_upload_non_csv_file init (upload_non_csv_file net));
   snd (test_get_transactions_default init (transactions_default net));
   snd (test_get_transactions_with_date_filter init
          (transactions_date_filter net));
   snd (test_get_transactions_with_pagination init
          (transactions_pagination net))].

End BannkMintAPITester.

Import BannkMintAPITester.

Lemma log_test_eq (self : BannkMintAPITester.t) (success : bool) :
  log_test self success
  = (BannkMintAPITester.Build (tests_run self + 1)
       (tests_passed self + Z.b2z success) (api_key self), success).
Proof.
  destruct self as [r p k]. destruct success; unfold log_test; simpl;
    do 2 f_equal; lia.
Qed.

Lemma count_true (l : list bool) :
  Z.of_nat (length (List.filter id l))
  = fold_right (fun b n => Z.b2z b + n) 0 l.
Proof.
  induction l as [| b r IH]; [reflexivity |].
  destruct b; simpl List.filter; cbn [fold_right length]; rewrite <- IH;
    simpl Z.b2z; lia.
Qed.

Lemma all_true (l : list bool) :
  forallb id l = true
  <-> fold_right (fun b n => Z.b2z b + n) 0 l = Z.of_nat (length l).
Proof.
  induction l as [| b r IH]; [simpl; tauto |].
  pose proof (count_true r) as Hc.
  pose proof (List.filter_length_le id r) as Hle.
  cbn [forallb fold_right length id]. destruct b; simpl Z.b2z; simpl andb.
  - rewrite IH. lia.
  - split; [discriminate | lia].
Qed.

Lemma log_test_fields (self : BannkMintAPITester.t) (success : bool) :
  tests_run (fst (log_test self success)) = tests_run self + 1
  /\ tests_passed (fst (log_test self success))
     = tests_passed self + Z.b2z success
  /\ api_key (fst (log_test self success)) = api_key self
  /\ snd (log_test self success) = success.
Proof.
  rewrite log_test_eq. repeat split.
Qed.

Lemma tester_eq (self : BannkMintAPITester.t) (r p : Z) (k : string) :
  tests_run self = r -> tests_passed self = p -> api_key self = k ->
  self = BannkMintAPITester.Build r p k.
Proof.
  destruct self. simpl. now intros -> -> ->.
Qed.

#[local] Ltac log_test_fields :=
  repeat first
    [ rewrite (fun s b => proj1 (log_test_fields s b))
    | rewrite (fun s b => proj1 (proj2 (log_test_fields s b)))
    | rewrite (fun s b => proj1 (proj2 (proj2 (log_test_fields s b))))
    | rewrite (fun s b => proj2 (proj2 (proj2 (log_test_fields s b)))) ].

(** The run as its tests count it. *)
Lemma run_all_tests_counts (self : BannkMintAPITester.t) (net : exchanges) :
  run_all_tests self net
  = match successes net with
    | true :: rest =>
        let passed :=
          tests_passed self + 1 + Z.of_nat (length (List.filter id rest)) in
        (BannkMintAPITester.Build (tests_run self + 9) passed (api_key self),
         passed =? tests_run self + 9)
    | _ =>
        (BannkMintAPITester.Build (tests_run self + 1) (tests_passed self)
           (api_key self), false)
    end.
Proof.
  unfold successes, run_all_tests, test_health_endpoint,
    test_csv_upload_valid, test_csv_upload_duplicate,
    test_csv_upload_no_api_key, test_csv_upload_invalid_api_key,
    test_csv_upload_non_csv_file, test_get_transactions_default,
    test_get_transactions_with_date_filter,
    test_get_transactions_with_pagination.
  rewrite (log_test_eq self).
  rewrite !(fun b => proj2 (proj2 (proj2 (log_test_fields init b)))).
  repeat match goal with
         | |- context [log_test _ ?b] =>
             tryif is_var b then fail else (generalize b; intro)
         end.
  match goal with
  | |- context [Z.b2z ?h] => destruct h
  end.
  - cbv beta iota zeta. cbn [negb].
    rewrite count_true. cbn [fold_right].
    f_equal.
    + apply tester_eq; log_test_fields;
        cbn [tests_run tests_passed api_key Z.b2z];
        first [reflexivity | lia].
    + log_test_fields. cbn [tests_run tests_passed api_key Z.b2z].
      f_equal; lia.
  - cbv beta iota. cbn [negb Z.b2z]. do 2 f_equal. lia.
Qed.

(** X17. A run of the suite by [main]: if the health test fails, it is the
    only test counted and the run fails; otherwise nine tests are counted,
    [tests_passed] is the number of those that succeeded, and the run
    succeeds, and [main] returns 0, exactly when all nine did. *)
Theorem run_all_tests_verdict (net : exchanges) :
  let after := fst (run_all_tests init net) in
  (hd false (successes net) = false ->
   tests_run after = 1 /\ tests_passed after = 0
   /\ snd (run_all_tests init net) = false)
  /\ (hd false (successes net) = true ->
      tests_run after = 9
      /\ tests_passed after
         = Z.of_nat (length (List.filter id (successes net))))
  /\ (snd (run_all_tests init net) = true
      <-> forallb id (successes net) = true)
  /\ (main net = 0 <-> forallb id (successes net) = true).
Proof.
  intros after. subst after. unfold main.
  rewrite (run_all_tests_counts init net).
  assert (length (tl (successes net)) = 8%nat) as Hlen by reflexivity.
  assert (exists h rest, successes net = h :: rest) as (h & rest & E)
    by (unfold successes; eauto).
  rewrite E in *. cbn [hd tl] in *.
  pose proof (all_true rest) as Hall. rewrite <- count_true, Hlen in Hall.
  pose proof (List.filter_length_le id rest) as Hle. rewrite Hlen in Hle.
  destruct h; cbv zeta; cbn [fst snd tests_run tests_passed init forallb
                              List.filter id length andb].
  - split; [discriminate |]. split; [intros _; split; lia |].
    rewrite Hall.
    destruct (Z.eqb_spec
                (0 + 1 + Z.of_nat (length (List.filter id rest))) (0 + 9))
      as [He | Hne].
    + split; split; intros _; try reflexivity; lia.
    + split; split; intros Hx; try discriminate; lia.
  - split; [auto |]. split; [discriminate |].
    split; split; discriminate.
Qed.

(** ** The tests of the upload route against the route *)

Section Suite.

Variable read_csv : list Z -> py DataFrame.
Variable date_parser_parse : string -> option Datetime.datetime.
Variable uuid4 : nat -> string.
Variable utcnow : nat -> Datetime.datetime.

#[local] Abbreviation route :=
  (upload_route read_csv date_parser_parse uuid4 utcnow).

Lemma upload_route_no_key (over_limit : bool) (file : UploadFile) (w : World) :
  status_is 401 (Some (fst (route over_limit None file w))) = false.
Proof.
  reflexivity.
Qed.

(** X18. Three tests that the server passes whatever it stores and
    whatever the file holds: the health test on the answer of
    [health_check]; the test with the key [invalid-key], which is answered
    401, rate limit or not; and the test with the tester's key and a file
    declared [text/plain], which is answered 415 while the limit is not
    reached. Neither upload changes the store. *)
Theorem suite_health_key_and_media_tests (self : BannkMintAPITester.t)
    (over_limit : bool) (file : UploadFile) (declared_size : option Z)
    (body : list Z) (w : World) :
  let plain :=
    {| content_type := Some "text/plain"; size := declared_size;
       content := body |} in
  snd (test_health_endpoint self (Some (Handled (Return health_check)))) = true
  /\ snd (test_csv_upload_invalid_api_key self
            (Some (fst (route over_limit (Some "invalid-key") file w)))) = true
  /\ snd (route over_limit (Some "invalid-key") file w) = w
  /\ snd (test_csv_upload_non_csv_file self
            (Some (fst (route false (Some (api_key init)) plain w)))) = true
  /\ snd (route false (Some (api_key init)) plain w) = w.
Proof.
  intros plain. subst plain. unfold upload_route.
  split; [reflexivity |]. split; [reflexivity |]. split; [reflexivity |].
  change (api_key init) with "dev-key". cbn [verify_api_key String.eqb negb].
  rewrite upload_unfold. split; reflexivity.
Qed.

(** X19. The test without a key cannot succeed against this route: the
    header is a required parameter, so a request without it is answered 422
    by the framework, where the test expects the 401 of [verify_api_key].
    A run of the suite whose request without a key is answered by the
    route, or not answered at all, therefore fails, and [main] returns 1. *)
Theorem suite_fails_without_key (net : exchanges) :
  upload_no_api_key net = None
  \/ (exists over_limit file w,
        upload_no_api_key net = Some (fst (route over_limit None file w))) ->
  snd (test_csv_upload_no_api_key init (upload_no_api_key net)) = false
  /\ snd (run_all_tests init net) = false
  /\ main net = 1.
Proof.
  intros H.
  assert (status_is 401 (upload_no_api_key net) = false) as Hk.
  { destruct H as [-> | (over_limit & file & w & ->)];
      [reflexivity | apply upload_route_no_key]. }
  split; [exact Hk |].
  unfold main. rewrite (run_all_tests_counts init net).
  assert (exists h a b r,
            successes net = h :: (a :: b :: false :: r)%list
            /\ length r = 5%nat) as (h & a & b & r & E & Hlen).
  { unfold successes. unfold test_csv_upload_no_api_key at 1.
    cbn [log_test snd]. rewrite Hk. do 4 eexists. split; reflexivity. }
  rewrite E. destruct h; [| split; reflexivity].
  cbv zeta. cbn [snd tests_passed tests_run init].
  rewrite count_true. cbn [fold_right Z.b2z].
  pose proof (count_true r) as Hc.
  pose proof (List.filter_length_le id r) as Hle.
  assert ((0 + 1
           + (Z.b2z a
              + (Z.b2z b
                 + (0 + fold_right (fun (b0 : bool) (n : Z) => Z.b2z b0 + n)
                          0 r))) =? 0 + 9) = false) as ->.
  { apply Z.eqb_neq. destruct a, b; simpl Z.b2z; lia. }
  split; reflexivity.
Qed.

(** X20. If the test of the first upload of the demo file succeeds, and
    the request of the next test is the next one to reach the store, with
    the same file, then the test of the second upload succeeds as well,
    and the store is as the first upload left it. *)
Theorem suite_duplicate_follows_valid (self self' : BannkMintAPITester.t)
    (file : UploadFile) (w : World) :
  let first := route false (Some (api_key init)) file w in
  let second := route false (Some (api_key init)) file (snd first) in
  snd (test_csv_upload_valid self (Some (fst first))) = true ->
  snd (test_csv_upload_duplicate self' (Some (fst second))) = true
  /\ snd second = snd first.
Proof.
  intros first second. subst first second. change (api_key init) with "dev-key".
  rewrite !upload_route_handler. cbn [fst snd].
  destruct (upload_again read_csv date_parser_parse uuid4 utcnow file w)
    as (Hw & _ & Hr).
  cbv zeta in Hw, Hr.
  unfold test_csv_upload_valid, test_csv_upload_duplicate, upload_counts_are.
  cbn [log_test snd].
  destruct (fst (upload_transactions_csv read_csv date_parser_parse uuid4
                   utcnow file w)) as [r | status d] eqn:E;
    [| discriminate].
  intros Hs. apply andb_true_iff in Hs. destruct Hs as [Hi Hk].
  apply Z.eqb_eq in Hi. apply Z.eqb_eq in Hk.
  rewrite (Hr r eq_refl), Hi, Hk. split; [reflexivity | exact Hw].
Qed.

End Suite.

(** X21. The pagination test succeeds on whatever [get_transactions]
    returns for page 1 and limit 5, whatever the store, the clock and the
    bounds: the answer repeats the page and the limit and holds no more
    than five records. *)
Theorem suite_pagination_test (self : BannkMintAPITester.t)
    (now : Datetime.datetime) (from_date to_date : option string)
    (w : World) (d : TransactionsResponse) :
  get_transactions now from_date to_date 1 5 w = Return d ->
  snd (test_get_transactions_with_pagination self (Some (Handled (Return d))))
  = true.
Proof.
  intros H. apply get_transactions_return in H.
  destruct H as (query & _ & _ & _ & ->).
  unfold test_get_transactions_with_pagination. cbn [log_test snd data page limit].
  unfold find_sorted. rewrite length_map, length_take.
  apply andb_true_iff. split; [reflexivity |].
  apply Z.leb_le. change (Z.to_nat 5) with 5%nat. lia.
Qed.

(** ** The further properties at concrete inputs *)

(** The first two documents of [three_stored]. *)
Definition coffee_stored : Transaction :=
  Transaction.Build "txn-0" "2024-01-31" "Coffee" Demo.f12_5 "USD" None
    (Demo.utcnow 0) "7c96978b015345849a675232950af003".


(** The answer of a request that returned. *)
Definition returned (r : response TransactionsResponse) : TransactionsResponse :=
  match r with
  | Return a => a
  | HTTPException _ _ => {| data := []; page := 0; limit := 0; total := 0 |}
  end.

(** [[
date,description,amount
2024-01-02,Opening,100
2024-01-05,Coffee,-4.5
2024-01-09,Books,-30
2024-01-12,Salary,2000
2024-01-15,Rent,-750.25
2024-01-19,Tea,-3
2024-01-23,Train,-12.5
2024-01-28,Refund,30
]] *)
Definition eight_rows : DataFrame :=
  {| columns := ["date"; "description"; "amount"];
     iterrows :=
       [Demo.row [("date", CStr "2024-01-02"); ("description", CStr "Opening");
                  ("amount", CFloat (PyFloat.of_int 100))];
        Demo.row [("date", CStr "2024-01-05"); ("description", CStr "Coffee");
                  ("amount", CFloat (PyFloat.of_decimal true 45 (-1)))];
        Demo.row [("date", CStr "2024-01-09"); ("description", CStr "Books");
                  ("amount", CFloat (PyFloat.of_int (-30)))];
        Demo.row [("date", CStr "2024-01-12"); ("description", CStr "Salary");
                  ("amount", CFloat (PyFloat.of_int 2000))];
        Demo.row [("date", CStr "2024-01-15"); ("description", CStr "Rent");
                  ("amount", CFloat (PyFloat.of_decimal true 75025 (-2)))];
        Demo.row [("date", CStr "2024-01-19"); ("description", CStr "Tea");
                  ("amount", CFloat (PyFloat.of_int (-3)))];
        Demo.row [("date", CStr "2024-01-23"); ("description", CStr "Train");
                  ("amount", CFloat (PyFloat.of_decimal true 125 (-1)))];
        Demo.row [("date", CStr "2024-01-28"); ("description", CStr "Refund");
                  ("amount", CFloat (PyFloat.of_int 30))]] |}.

(** The upload route with [Demo]'s libraries, [pd.read_csv] giving [df]. *)
Definition demo_route (df : DataFrame) (over_limit : bool)
    (x_api_key : option string) (file : UploadFile) (w : World)
  : routed UploadResponse * World :=
  upload_route (fun _ => Ok df) Demo.iso_parse Demo.uuid4 Demo.utcnow
    over_limit x_api_key file w.

(** A run in which the health request and the request without a key were
    answered by the server and nothing else was. *)
Definition two_answers : exchanges :=
  {| health := Some (Handled (Return health_check));
     upload_valid := None;
     upload_duplicate := None;
     upload_no_api_key :=
       Some (fst (demo_route eight_rows false None (Demo.csv_file 100)
                    Demo.empty_world));
     upload_invalid_api_key := None;
     upload_non_csv_file := None;
     transactions_default := None;
     transactions_date_filter := None;
     transactions_pagination := None |}.

(** X2 on the upload of [Demo.bar_rows] into [three_stored]. *)
Lemma upload_keeps_keys_unique_bar_rows :
  NoDup (keys (transactions three_stored))
  /\ NoDup (keys (transactions
                    (snd (demo_upload Demo.bar_rows (Demo.csv_file 100)
                            three_stored)))).
Proof.
  assert (NoDup (keys (transactions three_stored))) as H.
  { apply (bool_decide_unpack _). vm_compute. exact I. }
  split; [exact H |].
  apply (upload_keeps_keys_unique (fun _ => Ok Demo.bar_rows) Demo.iso_parse
           Demo.uuid4 Demo.utcnow (Demo.csv_file 100) three_stored H).
Defined.

(** X4 on the upload of [Demo.three_rows] into the empty store. *)
Lemma upload_counts_three_rows :
  let after :=
    snd (demo_upload Demo.three_rows (Demo.csv_file 100) Demo.empty_world) in
  3 + 0 = Z.of_nat (length (iterrows Demo.three_rows))
  /\ 0 <= 0
  /\ Z.of_nat (length (transactions after))
     = Z.of_nat (length (transactions Demo.empty_world)) + 3
  /\ 3 = Z.of_nat
           (base.size
              (row_key_set Demo.iso_parse (iterrows Demo.three_rows)
                 ∖ key_set (transactions Demo.empty_world)))
  /\ key_set (transactions after)
     = key_set (transactions Demo.empty_world)
         ∪ row_key_set Demo.iso_parse (iterrows Demo.three_rows).
Proof.
  apply (upload_counts (fun _ => Ok Demo.three_rows) Demo.iso_parse Demo.uuid4
           Demo.utcnow (Demo.csv_file 100) Demo.three_rows Demo.empty_world
           {| imported := 3; skipped := 0 |}).
  - reflexivity.
  - vm_compute; reflexivity.
Defined.

(** X5 on the first document of [three_stored]. *)
Lemma upload_writes_well_formed_coffee :
  In coffee_stored (transactions Demo.empty_world)
  \/ well_formed Demo.iso_parse coffee_stored.
Proof.
  apply (upload_writes_well_formed (fun _ => Ok Demo.three_rows) Demo.iso_parse
           Demo.uuid4 Demo.utcnow (Demo.csv_file 100) Demo.empty_world
           coffee_stored).
  vm_compute. left. reflexivity.
Defined.


(** X8 on a row of the line [31/01/2024,Coffee,,EUR]. *)
Lemma extract_empty_amount_coffee :
  let row :=
    Demo.row [("date", CStr "31/01/2024"); ("description", CStr "Coffee");
              ("amount", CFloat PyFloat.nan); ("currency", CStr "EUR")] in
  extract Demo.iso_parse row
  = Ok {| x_date := "2024-01-31";
          x_description := Py.strip (str_cell (CStr "Coffee"));
          x_amount := PyFloat.nan;
          x_currency := currency_of row;
          x_balance := None;
          x_hash_key :=
            Hashlib.md5_hexdigest
              (Py.encode
                 ("2024-01-31" ++ "|" ++ Py.strip (str_cell (CStr "Coffee"))
                    ++ "|nan|" ++ currency_of row)) |}.
Proof.
  intros row.
  apply (extract_empty_amount Demo.iso_parse row (CStr "31/01/2024")
           (CStr "Coffee") "2024-01-31").
  - vm_compute; reflexivity.
  - vm_compute; reflexivity.
  - vm_compute; reflexivity.
  - vm_compute; reflexivity.
  - vm_compute; reflexivity.
Defined.



(** X10 on the year 2024, before and after the upload of
    [Demo.three_rows] into the empty store. *)
Lemma upload_then_query_total_three_rows :
  let after :=
    snd (demo_upload Demo.three_rows (Demo.csv_file 100) Demo.empty_world) in
  let ask :=
    get_transactions (Demo.utcnow 0) (Some "2024-01-01") (Some "2024-12-31")
      1 50 in
  total (returned (ask Demo.empty_world)) <= total (returned (ask after))
  <= total (returned (ask Demo.empty_world))
     + (Z.of_nat (length (transactions after))
        - Z.of_nat (length (transactions Demo.empty_world))).
Proof.
  intros after ask.
  apply (upload_then_query_total (fun _ => Ok Demo.three_rows) Demo.iso_parse
           Demo.uuid4 Demo.utcnow (Demo.utcnow 0) (Some "2024-01-01")
           (Some "2024-12-31") 1 50 1 50 (Demo.csv_file 100) Demo.empty_world
           (returned (ask Demo.empty_world)) (returned (ask after))).
  - vm_compute; reflexivity.
  - vm_compute; reflexivity.
Defined.

(** X12 on an ISO date and on a text with one [/]. *)
Lemma normalize_date_asks_parser_examples :
  normalize_date Demo.iso_parse "2024-02-01" = Ok "2024-02-01"
  /\ normalize_date Demo.iso_parse "a/b"
     = Raise (ValueError "Invalid date format: a/b").
Proof.
  split.
  - apply (normalize_date_asks_parser Demo.iso_parse "2024-02-01").
    intros day month year H. vm_compute in H. discriminate H.
  - apply (normalize_date_asks_parser Demo.iso_parse "a/b").
    intros day month year H. vm_compute in H. discriminate H.
Defined.

(** X13 on the second page of two of the three stored records. *)
Lemma get_transactions_page_length_second_page :
  let r := returned (get_transactions (Demo.utcnow 0) None None 2 2 three_stored) in
  Z.of_nat (length (data r)) = Z.min 2 (Z.max 0 (total r - (2 - 1) * 2)).
Proof.
  intros r.
  apply (get_transactions_page_length (Demo.utcnow 0) None None 2 2
           three_stored r).
  vm_compute; reflexivity.
Defined.

(** X14 on the two pages of two of the three stored records. *)
Lemma get_transactions_pages_cover_two_pages :
  let query := {| gte := Some "2024-01-31"; lte := None |} in
  flat_map (page_data (Demo.utcnow 0) None None 2 three_stored) (seq 1 2)
  = List.map to_response
      (take (2 * Z.to_nat 2)
         (sort_date_desc
            (List.filter (matches query) (transactions three_stored))))
  /\ (count_documents query (transactions three_stored) <= Z.of_nat 2 * 2 ->
      Permutation
        (flat_map (page_data (Demo.utcnow 0) None None 2 three_stored)
           (seq 1 2))
        (List.map to_response
           (List.filter (matches query) (transactions three_stored)))).
Proof.
  intros query.
  apply (get_transactions_pages_cover (Demo.utcnow 0) None None 2 three_stored
           query 2).
  - lia.
  - vm_compute; reflexivity.
Defined.

(** X15 on February to January over the three stored records. *)
Lemma get_transactions_inverted_range_three_stored :
  get_transactions (Demo.utcnow 0) (Some "2024-02-01") (Some "2024-01-01")
    1 50 three_stored
  = Return {| data := []; page := 1; limit := 50; total := 0 |}.
Proof.
  apply (get_transactions_inverted_range (Demo.utcnow 0) "2024-02-01"
           "2024-01-01" 1 50 three_stored).
  - lia.
  - lia.
  - discriminate.
  - discriminate.
  - vm_compute; reflexivity.
Defined.


(** X19 on [two_answers]. *)
Lemma suite_fails_without_key_two_answers :
  snd (test_csv_upload_no_api_key init (upload_no_api_key two_answers)) = false
  /\ snd (run_all_tests init two_answers) = false
  /\ main two_answers = 1.
Proof.
  apply (suite_fails_without_key (fun _ => Ok eight_rows) Demo.iso_parse
           Demo.uuid4 Demo.utcnow two_answers).
  right. exists false, (Demo.csv_file 100), Demo.empty_world. reflexivity.
Defined.

(** X20 on two uploads of [eight_rows], the first into the empty store. *)
Lemma suite_duplicate_follows_valid_eight_rows :
  let first :=
    demo_route eight_rows false (Some (api_key init)) (Demo.csv_file 100)
      Demo.empty_world in
  let second :=
    demo_route eight_rows false (Some (api_key init)) (Demo.csv_file 100)
      (snd first) in
  snd (test_csv_upload_duplicate init (Some (fst second))) = true
  /\ snd second = snd first.
Proof.
  intros first second.
  apply (suite_duplicate_follows_valid (fun _ => Ok eight_rows) Demo.iso_parse
           Demo.uuid4 Demo.utcnow init init (Demo.csv_file 100)
           Demo.empty_world).
  vm_compute; reflexivity.
Defined.

(** X21 on the three stored records. *)
Lemma suite_pagination_test_three_stored :
  let d :=
    returned (get_transactions (Demo.utcnow 0) None None 1 5 three_stored) in
  snd (test_get_transactions_with_pagination init (Some (Handled (Return d))))
  = true.
Proof.
  intros d.
  apply (suite_pagination_test init (Demo.utcnow 0) None None three_stored d).
  vm_compute; reflexivity.
Defined.
